(** * Binocular Vision Lab: optical geometry and parameter state

    A shallow embedding of the TypeScript sources of the stereoscopic-vision
    simulator: the trigonometry of [App], [SimulationCanvas] and
    [CameraVisualizer], the [Slider] handlers of [Controls], the drag handler
    of [SceneContent], and the AI request of [handleAnalyze] /
    [analyzeSimulation].

    JavaScript numbers are modelled as extended reals: a finite value is a
    real number (binary64 rounding, overflow and the sign of zero are
    abstracted away), and the three special values [+Infinity], [-Infinity]
    and [NaN] are kept with their IEEE-754 arithmetic, since several handlers
    of the source branch on them ([isNaN], [Math.max], [Math.min]). *)

From Stdlib Require Import Reals Lra Lia String List Bool.
Import ListNotations.

Open Scope R_scope.

(** ** JavaScript numbers *)

Module JS.

Inductive num : Type :=
| Fin (r : R)
| PInf
| NInf
| NaN.

(** Sign of a real: negative, zero or positive. *)
Inductive sign : Type := Neg | Zero | Pos.

Definition sgn (r : R) : sign :=
  match total_order_T r 0 with
  | inleft (left _) => Neg
  | inleft (right _) => Zero
  | inright _ => Pos
  end.

Definition isNaN (a : num) : bool :=
  match a with NaN => true | _ => false end.

(** Unary minus. *)
Definition neg (a : num) : num :=
  match a with
  | Fin r => Fin (- r)
  | PInf => NInf
  | NInf => PInf
  | NaN => NaN
  end.

(** [a + b]. *)
Definition add (a b : num) : num :=
  match a, b with
  | NaN, _ | _, NaN => NaN
  | Fin x, Fin y => Fin (x + y)
  | PInf, NInf | NInf, PInf => NaN
  | PInf, _ | _, PInf => PInf
  | NInf, _ | _, NInf => NInf
  end.

(** [a - b]. *)
Definition sub (a b : num) : num := add a (neg b).

(** An infinity of the sign of [s]; [0 * Infinity] is [NaN]. *)
Definition inf_of (s : sign) : num :=
  match s with Pos => PInf | Neg => NInf | Zero => NaN end.

Definition flip (s : sign) : sign :=
  match s with Pos => Neg | Neg => Pos | Zero => Zero end.

(** [a * b]. *)
Definition mul (a b : num) : num :=
  match a, b with
  | NaN, _ | _, NaN => NaN
  | Fin x, Fin y => Fin (x * y)
  | Fin x, PInf | PInf, Fin x => inf_of (sgn x)
  | Fin x, NInf | NInf, Fin x => inf_of (flip (sgn x))
  | PInf, PInf | NInf, NInf => PInf
  | PInf, NInf | NInf, PInf => NInf
  end.

(** [a / b]; nothing throws.  What a division by zero gives depends on the
    sign of the zero, which this model does not keep: the value here is the
    one for [+0], the zero of the literal [0], and no property below rests
    on it.  Nor does a finite quotient underflow to zero here. *)
Definition div (a b : num) : num :=
  match a, b with
  | NaN, _ | _, NaN => NaN
  | Fin x, Fin y =>
      match sgn y with
      | Zero => inf_of (sgn x)
      | _ => Fin (x / y)
      end
  | Fin _, PInf | Fin _, NInf => Fin 0
  | PInf, Fin y => match sgn y with Neg => NInf | _ => PInf end
  | NInf, Fin y => match sgn y with Neg => PInf | _ => NInf end
  | PInf, PInf | PInf, NInf | NInf, PInf | NInf, NInf => NaN
  end.

(** [Math.atan]. *)
Definition atan (a : num) : num :=
  match a with
  | Fin x => Fin (Ratan.atan x)
  | PInf => Fin (PI / 2)
  | NInf => Fin (- (PI / 2))
  | NaN => NaN
  end.

(** [Math.max(a, b)]: [NaN] if either argument is. *)
Definition max (a b : num) : num :=
  match a, b with
  | NaN, _ | _, NaN => NaN
  | PInf, _ | _, PInf => PInf
  | NInf, c | c, NInf => c
  | Fin x, Fin y => Fin (Rmax x y)
  end.

(** [Math.min(a, b)]: [NaN] if either argument is. *)
Definition min (a b : num) : num :=
  match a, b with
  | NaN, _ | _, NaN => NaN
  | NInf, _ | _, NInf => NInf
  | PInf, c | c, PInf => c
  | Fin x, Fin y => Fin (Rmin x y)
  end.

(** [Math.PI]. *)
Definition PI : num := Fin Rtrigo1.PI.

(** [a <= b] on numbers; every comparison with [NaN] is false. *)
Definition le (a b : num) : Prop :=
  match a, b with
  | NaN, _ | _, NaN => False
  | NInf, _ | _, PInf => True
  | Fin x, Fin y => x <= y
  | _, _ => False
  end.

Definition lt (a b : num) : Prop :=
  match a, b with
  | NaN, _ | _, NaN => False
  | Fin x, Fin y => x < y
  | NInf, NInf | PInf, PInf => False
  | NInf, _ | _, PInf => True
  | _, _ => False
  end.

(** [Number.isFinite]. *)
Definition isFinite (a : num) : Prop :=
  match a with Fin _ => True | _ => False end.

(** [Object.is] on numbers, the comparison React applies to dependency
    arrays: [NaN] is the same value as [NaN]. *)
Definition same_dec (a b : num) : {a = b} + {a <> b}.
Proof.
  destruct a as [x| | |], b as [y| | |];
    try (left; reflexivity); try (right; discriminate).
  destruct (Req_dec_T x y) as [e|n].
  - left. now subst.
  - right. intros H. now inversion H.
Defined.

(** [Math.sin]: no sine of an infinity. *)
Definition sin (a : num) : num :=
  match a with
  | Fin x => Fin (Rtrigo_def.sin x)
  | _ => NaN
  end.

(** [Math.tan]. *)
Definition tan (a : num) : num :=
  match a with
  | Fin x => Fin (Rtrigo1.tan x)
  | _ => NaN
  end.

(** [Math.max(a, b, c)]. *)
Definition max3 (a b c : num) : num := max (max a b) c.

End JS.

Declare Scope js_scope.
Delimit Scope js_scope with js.
Bind Scope js_scope with JS.num.
Infix "+" := JS.add : js_scope.
Infix "-" := JS.sub : js_scope.
Infix "*" := JS.mul : js_scope.
Infix "/" := JS.div : js_scope.
Notation "- x" := (JS.neg x) : js_scope.
Coercion JS.Fin : R >-> JS.num.

(** ** types.ts and constants.ts *)

Inductive ObjectType : Type := cube | sphere | torus | dna | custom.

Inductive ViewMode : Type := SIDE_BY_SIDE | ANAGLYPH | OVERLAY.

Record AIAnalysisResult : Type := {
  title : string;
  explanation : string;
  depthImplications : string;
  technicalNote : string
}.

Record SimulationParams : Type := {
  ipd : JS.num;
  focalLength : JS.num;
  targetDistance : JS.num;
  vergenceAngle : JS.num;
  objectType : ObjectType;
  wireframe : bool;
  cameraSize : JS.num;
  objectScale : JS.num;
  isPaused : bool;
  isViewLocked : bool;
  showBoundingBox : bool;
  showBackgroundBoundingBox : bool;
  showCameraBoundingBox : bool;
  showFOV : bool;
  customModelUrl : option string
}.

Definition DEFAULT_PARAMS : SimulationParams := {|
  ipd := 64;
  focalLength := 50;
  targetDistance := 2.5;
  vergenceAngle := 0;
  objectType := torus;
  wireframe := false;
  cameraSize := 0.15;
  objectScale := 0.5;
  isPaused := false;
  isViewLocked := false;
  showBoundingBox := false;
  showBackgroundBoundingBox := false;
  showCameraBoundingBox := false;
  showFOV := true;
  customModelUrl := None
|}.

Definition MIN_IPD : JS.num := 0.
Definition MAX_IPD : JS.num := 20000.
Definition MIN_DISTANCE : JS.num := 0.5.
Definition MAX_DISTANCE : JS.num := 10.0.

(** One property of a [Partial<SimulationParams>] object: a key of
    [SimulationParams] with a value for it. *)
Inductive entry : Type :=
| K_ipd (v : JS.num)
| K_focalLength (v : JS.num)
| K_targetDistance (v : JS.num)
| K_vergenceAngle (v : JS.num)
| K_objectType (v : ObjectType)
| K_wireframe (v : bool)
| K_cameraSize (v : JS.num)
| K_objectScale (v : JS.num)
| K_isPaused (v : bool)
| K_isViewLocked (v : bool)
| K_showBoundingBox (v : bool)
| K_showBackgroundBoundingBox (v : bool)
| K_showCameraBoundingBox (v : bool)
| K_showFOV (v : bool)
| K_customModelUrl (v : option string).

(** [{ ...p, [key]: value }]. *)
Definition assign (kv : entry) (p : SimulationParams) : SimulationParams := {|
  ipd := match kv with K_ipd v => v | _ => ipd p end;
  focalLength := match kv with K_focalLength v => v | _ => focalLength p end;
  targetDistance :=
    match kv with K_targetDistance v => v | _ => targetDistance p end;
  vergenceAngle :=
    match kv with K_vergenceAngle v => v | _ => vergenceAngle p end;
  objectType := match kv with K_objectType v => v | _ => objectType p end;
  wireframe := match kv with K_wireframe v => v | _ => wireframe p end;
  cameraSize := match kv with K_cameraSize v => v | _ => cameraSize p end;
  objectScale := match kv with K_objectScale v => v | _ => objectScale p end;
  isPaused := match kv with K_isPaused v => v | _ => isPaused p end;
  isViewLocked :=
    match kv with K_isViewLocked v => v | _ => isViewLocked p end;
  showBoundingBox :=
    match kv with K_showBoundingBox v => v | _ => showBoundingBox p end;
  showBackgroundBoundingBox :=
    match kv with
    | K_showBackgroundBoundingBox v => v
    | _ => showBackgroundBoundingBox p
    end;
  showCameraBoundingBox :=
    match kv with
    | K_showCameraBoundingBox v => v
    | _ => showCameraBoundingBox p
    end;
  showFOV := match kv with K_showFOV v => v | _ => showFOV p end;
  customModelUrl :=
    match kv with K_customModelUrl v => v | _ => customModelUrl p end
|}.

(** [{ ...p, ...updates }], the properties of [updates] in order. *)
Definition spread (p : SimulationParams) (updates : list entry)
  : SimulationParams :=
  fold_left (fun q kv => assign kv q) updates p.

(** A state update handed to React's [setParams]. *)
Definition SetStateAction : Type := SimulationParams -> SimulationParams.

(** ** SimulationCanvas.tsx *)

Definition Vec3 : Type := (JS.num * JS.num * JS.num)%type.

(** The first coordinate, along the baseline of the two eyes. *)
Definition xOf (v : Vec3) : JS.num := fst (fst v).

(** The props of a [PerspectiveCamera] or of a [CameraMesh]. *)
Record Placement : Type := {
  position : Vec3;
  rotation : Vec3
}.

Module SimulationCanvas.

Definition halfBaseLine (params : SimulationParams) : JS.num :=
  ((ipd params * 0.001) / 2)%js.

Definition convergenceAngle (params : SimulationParams) : JS.num :=
  JS.atan (halfBaseLine params / targetDistance params)%js.

Definition camZ (params : SimulationParams) : JS.num := targetDistance params.

Definition sensorHeight : JS.num := 24.

Definition fovRadians (params : SimulationParams) : JS.num :=
  (2 * JS.atan (sensorHeight / (2 * focalLength params)))%js.

Definition fov (params : SimulationParams) : JS.num :=
  ((fovRadians params * 180) / JS.PI)%js.

(** The camera of the left view. *)
Definition leftCamera (params : SimulationParams) : Placement := {|
  position := ((- halfBaseLine params)%js, JS.Fin 0, camZ params);
  rotation := (JS.Fin 0, (- convergenceAngle params)%js, JS.Fin 0)
|}.

(** The camera of the right view. *)
Definition rightCamera (params : SimulationParams) : Placement := {|
  position := (halfBaseLine params, JS.Fin 0, camZ params);
  rotation := (JS.Fin 0, convergenceAngle params, JS.Fin 0)
|}.

Definition toggleViewLock : SetStateAction :=
  fun p => assign (K_isViewLocked (negb (isViewLocked p))) p.

(** The [onParamChange] prop given to the God-view [SceneContent]. *)
Definition onParamChange (updates : list entry) : SetStateAction :=
  fun prev => spread prev updates.

End SimulationCanvas.

Module CameraVisualizer.

Definition halfBaseLine (params : SimulationParams) : JS.num :=
  ((ipd params * 0.001) / 2)%js.

Definition camZ (params : SimulationParams) : JS.num := targetDistance params.

Definition convergenceAngle (params : SimulationParams) : JS.num :=
  JS.atan (halfBaseLine params / targetDistance params)%js.

Definition sensorHeight : JS.num := 24.

Definition fovRadians (params : SimulationParams) : JS.num :=
  (2 * JS.atan (sensorHeight / (2 * focalLength params)))%js.

Definition fov (params : SimulationParams) : JS.num :=
  ((fovRadians params * 180) / JS.PI)%js.

(** The left-eye [CameraMesh]. *)
Definition leftMesh (params : SimulationParams) : Placement := {|
  position := ((- halfBaseLine params)%js, JS.Fin 0, camZ params);
  rotation := (JS.Fin 0, (- convergenceAngle params)%js, JS.Fin 0)
|}.

(** The right-eye [CameraMesh]. *)
Definition rightMesh (params : SimulationParams) : Placement := {|
  position := (halfBaseLine params, JS.Fin 0, camZ params);
  rotation := (JS.Fin 0, convergenceAngle params, JS.Fin 0)
|}.

End CameraVisualizer.

Module SceneContent.

(** [handleDragEnd], with [zOffset] the [position.z] of the dragged mesh,
    in the God view, where the mesh is mounted and [onParamChange] is
    given; the result is the object handed to [onParamChange]. *)
Definition handleDragEnd (params : SimulationParams) (zOffset : JS.num)
  : list entry :=
  let newDistance := JS.max 0.5 (targetDistance params - zOffset)%js in
  [K_targetDistance newDistance].

End SceneContent.

(** ** Controls.tsx *)

Module Slider.
Section Slider.

(** The browser's [parseFloat]. *)
Variable parseFloat : string -> JS.num.

(** [onChange] of the number box, for the typed text [value]: the arguments
    with which the [onChange] prop is called (none or one). *)
Definition numberInput_onChange (min max : JS.num) (value : string)
  : list JS.num :=
  let val := parseFloat value in
  if negb (JS.isNaN val) then [JS.max min (JS.min max val)] else [].

(** [onChange] of the range input. *)
Definition rangeInput_onChange (value : string) : list JS.num :=
  [parseFloat value].

End Slider.
End Slider.

Module Controls.

Definition updateParam (kv : entry) : SetStateAction :=
  fun prev => assign kv prev.

(** The five [Slider] elements of the panel. *)
Inductive slider : Type :=
| ipdSlider | distanceSlider | focalSlider | scaleSlider | cameraSizeSlider.

Definition slider_min (sl : slider) : JS.num :=
  match sl with
  | ipdSlider => MIN_IPD
  | distanceSlider => MIN_DISTANCE
  | focalSlider => 15
  | scaleSlider => 0.1
  | cameraSizeSlider => 0.1
  end.

Definition slider_max (sl : slider) : JS.num :=
  match sl with
  | ipdSlider => MAX_IPD
  | distanceSlider => MAX_DISTANCE
  | focalSlider => 200
  | scaleSlider => 2.0
  | cameraSizeSlider => 1.0
  end.

(** The [onChange] prop of each slider. *)
Definition slider_onChange (sl : slider) (v : JS.num) : SetStateAction :=
  match sl with
  | ipdSlider => updateParam (K_ipd v)
  | distanceSlider => updateParam (K_targetDistance v)
  | focalSlider => updateParam (K_focalLength v)
  | scaleSlider => updateParam (K_objectScale v)
  | cameraSizeSlider => updateParam (K_cameraSize v)
  end.

(** The value a slider displays. *)
Definition slider_value (sl : slider) (params : SimulationParams) : JS.num :=
  match sl with
  | ipdSlider => ipd params
  | distanceSlider => targetDistance params
  | focalSlider => focalLength params
  | scaleSlider => objectScale params
  | cameraSizeSlider => cameraSize params
  end.

(** [handleFileUpload], with the object URL of the chosen file if any. *)
Definition handleFileUpload (file : option string) : list SetStateAction :=
  match file with
  | Some url =>
      [updateParam (K_customModelUrl (Some url)); updateParam (K_objectType custom)]
  | None => []
  end.

(** The toggle buttons of the panel. *)
Inductive toggle : Type :=
| PauseButton | WireframeButton | BoundingBoxButton
| BackgroundBoundingBoxButton | CameraBoundingBoxButton | FOVButton.

Definition toggle_onClick (t : toggle) (params : SimulationParams)
  : SetStateAction :=
  match t with
  | PauseButton => updateParam (K_isPaused (negb (isPaused params)))
  | WireframeButton => updateParam (K_wireframe (negb (wireframe params)))
  | BoundingBoxButton =>
      updateParam (K_showBoundingBox (negb (showBoundingBox params)))
  | BackgroundBoundingBoxButton =>
      updateParam
        (K_showBackgroundBoundingBox (negb (showBackgroundBoundingBox params)))
  | CameraBoundingBoxButton =>
      updateParam
        (K_showCameraBoundingBox (negb (showCameraBoundingBox params)))
  | FOVButton => updateParam (K_showFOV (negb (showFOV params)))
  end.

(** The four object buttons. *)
Inductive objectButton : Type := torusButton | cubeButton | sphereButton | dnaButton.

Definition objectButton_id (b : objectButton) : ObjectType :=
  match b with
  | torusButton => torus
  | cubeButton => cube
  | sphereButton => sphere
  | dnaButton => dna
  end.

Definition objectButton_onClick (b : objectButton) : SetStateAction :=
  updateParam (K_objectType (objectButton_id b)).

End Controls.

(** ** Rejecting computations *)

Module Promise.

(** A thrown value; [message] is [e.message], absent when the value thrown
    is no [Error]. *)
Record Thrown : Type := { message : option string }.

(** [new Error(msg)]. *)
Definition Error (msg : string) : Thrown := {| message := Some msg |}.

(** A computation that returns or throws, and records the prompts it has
    sent to the endpoint. *)
Definition M (A : Type) : Type := list string -> (Thrown + A) * list string.

Definition ret {A} (a : A) : M A := fun log => (inr a, log).

Definition throw {A} (e : Thrown) : M A := fun log => (inl e, log).

Definition bind {A B} (c : M A) (k : A -> M B) : M B :=
  fun log =>
    match c log with
    | (inr a, log') => k a log'
    | (inl e, log') => (inl e, log')
    end.

(** [try { c } catch (error) { h error }]. *)
Definition try_catch {A} (c : M A) (h : Thrown -> M A) : M A :=
  fun log =>
    match c log with
    | (inr a, log') => (inr a, log')
    | (inl e, log') => h e log'
    end.

(** A call that neither logs nor is retried. *)
Definition lift {A} (r : Thrown + A) : M A := fun log => (r, log).

End Promise.

Notation "x <- c ;; k" := (Promise.bind c (fun x => k))
  (at level 61, c at next level, right associativity).

(** ** services/geminiService *)

Module geminiService.
Import Promise.
Section Service.

(** [process.env.API_KEY || ''] *)
Variable apiKey : string.

(** [ai.models.generateContent] on a prompt: it throws, or resolves to a
    response whose [text] may be undefined. *)
Variable generateContent : string -> Thrown + option string.

(** [JSON.parse(text) as AIAnalysisResult]. *)
Variable JSON_parse : string -> Thrown + AIAnalysisResult.

(** A number in a template literal. *)
Variable toString : JS.num -> string.

(** [ai]: the client exists only for a non-empty key. *)
Definition ai : option (string -> M (option string)) :=
  if (apiKey =? EmptyString)%string then None
  else Some (fun prompt log => (generateContent prompt, log ++ [prompt])).

Definition prompt (params : SimulationParams) : string :=
  ("
    分析以下双目视觉模拟设置：
    - 瞳距 (基线): " ++ toString (ipd params) ++ " mm
    - 焦距: " ++ toString (focalLength params) ++ " mm
    - 目标物体距离: " ++ toString (targetDistance params) ++ " meters
    
    请提供：
    1. 此配置状态的简短标题（例如，“超立体视觉”、“标准人类视觉”）。
    2. 解释当前基线如何影响深度感知（立体视觉）。
    3. 对深度分辨率的影响（例如，视差是大还是小？）。
    4. 关于潜在视觉舒适度或计算机视觉应用的技术说明。
    
    请确保所有返回内容均为中文。
  ")%string.

Definition analyzeSimulation (params : SimulationParams)
  : M AIAnalysisResult :=
  match ai with
  | None => throw (Error "缺少 Gemini API 密钥。请检查您的环境配置。")
  | Some models_generateContent =>
      try_catch
        (text <- models_generateContent (prompt params) ;;
         match text with
         | None | Some EmptyString => throw (Error "Gemini 没有响应")
         | Some text => lift (JSON_parse text)
         end)
        (fun error => throw error)
  end.

End Service.
End geminiService.

(** ** App.tsx *)

Module App.
Import Promise.

(** The state hooks of [App], with the dependency array React remembers for
    the vergence effect ([None] until the effect has run once). *)
Record State : Type := {
  params : SimulationParams;
  viewMode : ViewMode;
  analysis : option AIAnalysisResult;
  isAnalyzing : bool;
  error : option string;
  effectDeps : option (JS.num * JS.num)
}.

Definition initial : State := {|
  params := DEFAULT_PARAMS;
  viewMode := SIDE_BY_SIDE;
  analysis := None;
  isAnalyzing := false;
  error := None;
  effectDeps := None
|}.

Definition setParams (f : SetStateAction) (s : State) : State := {|
  params := f (params s);
  viewMode := viewMode s;
  analysis := analysis s;
  isAnalyzing := isAnalyzing s;
  error := error s;
  effectDeps := effectDeps s
|}.

Definition setViewMode (m : ViewMode) (s : State) : State := {|
  params := params s;
  viewMode := m;
  analysis := analysis s;
  isAnalyzing := isAnalyzing s;
  error := error s;
  effectDeps := effectDeps s
|}.

Definition setAnalysis (a : option AIAnalysisResult) (s : State) : State := {|
  params := params s;
  viewMode := viewMode s;
  analysis := a;
  isAnalyzing := isAnalyzing s;
  error := error s;
  effectDeps := effectDeps s
|}.

Definition setIsAnalyzing (b : bool) (s : State) : State := {|
  params := params s;
  viewMode := viewMode s;
  analysis := analysis s;
  isAnalyzing := b;
  error := error s;
  effectDeps := effectDeps s
|}.

Definition setError (e : option string) (s : State) : State := {|
  params := params s;
  viewMode := viewMode s;
  analysis := analysis s;
  isAnalyzing := isAnalyzing s;
  error := e;
  effectDeps := effectDeps s
|}.

Definition setEffectDeps (d : option (JS.num * JS.num)) (s : State) : State := {|
  params := params s;
  viewMode := viewMode s;
  analysis := analysis s;
  isAnalyzing := isAnalyzing s;
  error := error s;
  effectDeps := d
|}.

(** *** The vergence effect *)

Definition halfBaseM (params : SimulationParams) : JS.num :=
  ((ipd params / 1000) / 2)%js.

Definition angleRad (params : SimulationParams) : JS.num :=
  JS.atan (halfBaseM params / targetDistance params)%js.

Definition angleDeg (params : SimulationParams) : JS.num :=
  (angleRad params * (180 / JS.PI))%js.

(** The body of the effect, run for the rendered [params]: the update it
    hands to [setParams]. *)
Definition vergenceEffect (params : SimulationParams) : SetStateAction :=
  fun p => assign (K_vergenceAngle (angleDeg params * 2)%js) p.

(** The dependency array [[params.ipd, params.targetDistance]]. *)
Definition deps (params : SimulationParams) : JS.num * JS.num :=
  (ipd params, targetDistance params).

Definition sameDeps (d d' : JS.num * JS.num) : bool :=
  if JS.same_dec (fst d) (fst d') then
    if JS.same_dec (snd d) (snd d') then true else false
  else false.

(** Whether the effect is due after a render of [s]: on mount, and whenever
    a dependency differs from the last run. *)
Definition effectPending (s : State) : bool :=
  match effectDeps s with
  | None => true
  | Some d => negb (sameDeps d (deps (params s)))
  end.

(** React runs the effect after the render if it is due. *)
Definition flushEffect (s : State) : State :=
  if effectPending s then
    setEffectDeps (Some (deps (params s)))
      (setParams (vergenceEffect (params s)) s)
  else s.

(** The half angle yields no angle: JavaScript arithmetic and [Math.atan]
    never throw, so [NaN] is the only failure the computation can end in. *)
Definition halfAngleFails (params : SimulationParams) : Prop :=
  JS.isNaN (angleDeg params) = true.

(** *** handleAnalyze *)

(** [e.message || fallback] *)
Definition message_or (e : Thrown) (fallback : string) : string :=
  match message e with
  | None | Some EmptyString => fallback
  | Some m => m
  end.

(** The synchronous start of [handleAnalyze], up to the [await]. *)
Definition handleAnalyze_start (s : State) : State :=
  setError None (setIsAnalyzing true s).

(** The rest of [handleAnalyze], once the promise of [analyzeSimulation]
    has resolved or rejected with [r]. *)
Definition handleAnalyze_settle (r : Thrown + AIAnalysisResult) (s : State)
  : State :=
  let s' :=
    match r with
    | inr result => setAnalysis (Some result) s
    | inl e => setError (Some (message_or e "分析失败")) s
    end in
  setIsAnalyzing false s'.

Section Analyze.

Variable analyzeSimulation : SimulationParams -> M AIAnalysisResult.

(** [handleAnalyze] run to completion with no other event in between,
    together with the prompts sent meanwhile. *)
Definition handleAnalyze (s : State) : State * list string :=
  let s1 := handleAnalyze_start s in
  let (r, log) := analyzeSimulation (params s) [] in
  (handleAnalyze_settle r s1, log).

End Analyze.

(** *** What is rendered from the state *)

Inductive RightPanel : Type :=
| ErrorMessage (text : string)
| AIPanel (result : option AIAnalysisResult) (isLoading : bool).

(** [error ? <error message> : <AIPanel/>]: an empty string is falsy. *)
Definition rightPanel (s : State) : RightPanel :=
  match error s with
  | None | Some EmptyString => AIPanel (analysis s) (isAnalyzing s)
  | Some text => ErrorMessage text
  end.

(** The [disabled] attribute of the analysis button. *)
Definition analyzeButton_disabled (s : State) : bool := isAnalyzing s.

(** *** User interaction *)

Inductive event : Type :=
| NumberInput (sl : Controls.slider) (value : string)
| RangeInput (sl : Controls.slider) (value : string)
| ObjectClick (b : Controls.objectButton)
| FileUpload (file : option string)
| ToggleClick (t : Controls.toggle)
| ViewModeClick (m : ViewMode)
| ViewLockClick
| DragEnd (zOffset : JS.num)
| AnalyzeClick
| AnalyzeSettled (r : Thrown + AIAnalysisResult)
| DismissError.

Section Events.

Variable parseFloat : string -> JS.num.

(** The state updates an event enqueues, from the rendered state [s]. *)
Definition paramUpdates (e : event) (s : State) : list SetStateAction :=
  match e with
  | NumberInput sl value =>
      map (Controls.slider_onChange sl)
        (Slider.numberInput_onChange parseFloat
           (Controls.slider_min sl) (Controls.slider_max sl) value)
  | RangeInput sl value =>
      map (Controls.slider_onChange sl)
        (Slider.rangeInput_onChange parseFloat value)
  | ObjectClick b => [Controls.objectButton_onClick b]
  | FileUpload file => Controls.handleFileUpload file
  | ToggleClick t => [Controls.toggle_onClick t (params s)]
  | ViewLockClick => [SimulationCanvas.toggleViewLock]
  | DragEnd zOffset =>
      [SimulationCanvas.onParamChange
         (SceneContent.handleDragEnd (params s) zOffset)]
  | ViewModeClick _ | AnalyzeClick | AnalyzeSettled _ | DismissError => []
  end.

(** The handler of an event: its [setParams] calls in order, then its
    updates of the other hooks. *)
Definition handle (e : event) (s : State) : State :=
  let s' := fold_left (fun st f => setParams f st) (paramUpdates e s) s in
  match e with
  | ViewModeClick m => setViewMode m s'
  | AnalyzeClick => handleAnalyze_start s'
  | AnalyzeSettled r => handleAnalyze_settle r s'
  | DismissError => setError None s'
  | _ => s'
  end.

(** What the page lets through: a range input only reports values within
    its [min] and [max] attributes; the transform gizmo is mounted only
    while the view is locked, and the depth [handleDragEnd] reads from the
    mesh behind [meshRef] is 0, since nothing in the source moves that mesh
    but the animation, in height, and [handleDragEnd] itself, back to the
    origin; the analysis button is disabled while a request is in flight,
    and a request settles only while in flight. *)
Definition enabled (e : event) (s : State) : Prop :=
  match e with
  | RangeInput sl value =>
      JS.le (Controls.slider_min sl) (parseFloat value) /\
      JS.le (parseFloat value) (Controls.slider_max sl)
  | DragEnd zOffset => isViewLocked (params s) = true /\ zOffset = JS.Fin 0
  | AnalyzeClick => isAnalyzing s = false
  | AnalyzeSettled _ => isAnalyzing s = true
  | _ => True
  end.

(** One step of the application.  React runs the effects of a render
    before it handles the next update, so a pending effect runs before
    anything else; otherwise an enabled event is handled. *)
Inductive step : State -> State -> Prop :=
| step_effect s :
    effectPending s = true -> step s (flushEffect s)
| step_event e s :
    effectPending s = false -> enabled e s -> step s (handle e s).

Inductive reachable : State -> Prop :=
| reach_initial : reachable initial
| reach_step s s' : reachable s -> step s s' -> reachable s'.

End Events.

End App.

(** ** The rest of SimulationCanvas.tsx *)

Definition ObjectType_id (o : ObjectType) : string :=
  match o with
  | cube => "cube"
  | sphere => "sphere"
  | torus => "torus"
  | dna => "dna"
  | custom => "custom"
  end.

(** [getObjectDimensions]: width, height and depth of the object of a type,
    with the [default] case of the [switch]. *)
Definition getObjectDimensions (type : string) : Vec3 :=
  if (type =? "cube")%string then (JS.Fin 2, JS.Fin 2, JS.Fin 2)
  else if (type =? "sphere")%string then (JS.Fin 3, JS.Fin 3, JS.Fin 3)
  else if (type =? "torus")%string then (JS.Fin 3, JS.Fin 3, JS.Fin 1.6)
  else if (type =? "dna")%string then (JS.Fin 2.5, JS.Fin 8, JS.Fin 0.5)
  else (JS.Fin 2, JS.Fin 2, JS.Fin 2).

Definition yOf (v : Vec3) : JS.num := snd (fst v).
Definition zOf (v : Vec3) : JS.num := snd v.

Module BoundingBoxOverlay.

Definition maxDim (dims : Vec3) : JS.num :=
  JS.max3 (xOf dims) (yOf dims) (zOf dims).

Definition labelSize (dims : Vec3) (labelScaleMultiplier : JS.num) : JS.num :=
  (maxDim dims * 0.10 * labelScaleMultiplier)%js.

(** A [Text] label: where it is anchored, its font size, and the length in
    metres it prints. *)
Record Label : Type := {
  at_ : Vec3;
  fontSize : JS.num;
  metres : JS.num
}.

Section Labels.

Variables (dims : Vec3) (scale labelScaleMultiplier : JS.num).

Definition widthLabel : Label := {|
  at_ := (JS.Fin 0,
          (yOf dims / 2 + labelSize dims labelScaleMultiplier * 0.5)%js,
          (zOf dims / 2)%js);
  fontSize := labelSize dims labelScaleMultiplier;
  metres := (xOf dims * scale)%js
|}.

Definition heightLabel : Label := {|
  at_ := ((xOf dims / 2 + labelSize dims labelScaleMultiplier * 0.5)%js,
          JS.Fin 0,
          (zOf dims / 2)%js);
  fontSize := labelSize dims labelScaleMultiplier;
  metres := (yOf dims * scale)%js
|}.

Definition depthLabel : Label := {|
  at_ := ((xOf dims / 2)%js,
          (- yOf dims / 2 - labelSize dims labelScaleMultiplier * 0.5)%js,
          JS.Fin 0);
  fontSize := labelSize dims labelScaleMultiplier;
  metres := (zOf dims * scale)%js
|}.

(** The labels drawn: none unless [showLabels]. *)
Definition labels (showLabels : bool) : list Label :=
  if showLabels then [widthLabel; heightLabel; depthLabel] else [].

End Labels.

End BoundingBoxOverlay.

Module CameraFrustum.

Section Frustum.

Variables (fov distance : JS.num).

Definition aspect : JS.num := (16 / 9)%js.

Definition fovRad : JS.num := ((fov * JS.PI) / 180)%js.

Definition halfH : JS.num := (JS.tan (fovRad / 2) * distance)%js.

Definition halfW : JS.num := (halfH * aspect)%js.

(** The tip and the four corners of the far plane. *)
Definition points : list Vec3 :=
  [ (JS.Fin 0, JS.Fin 0, JS.Fin 0);
    ((- halfW)%js, halfH, (- distance)%js);
    (halfW, halfH, (- distance)%js);
    (halfW, (- halfH)%js, (- distance)%js);
    ((- halfW)%js, (- halfH)%js, (- distance)%js) ].

Definition t : Vec3 := (JS.Fin 0, JS.Fin 0, JS.Fin 0).
Definition tl : Vec3 := ((- halfW)%js, halfH, (- distance)%js).
Definition tr : Vec3 := (halfW, halfH, (- distance)%js).
Definition bl : Vec3 := ((- halfW)%js, (- halfH)%js, (- distance)%js).
Definition br : Vec3 := (halfW, (- halfH)%js, (- distance)%js).

(** The triangles pushed into [vertices], in order. *)
Definition triangles : list (Vec3 * Vec3 * Vec3) :=
  [ (t, tl, tr); (t, tr, br); (t, br, bl); (t, bl, tl);
    (tl, bl, br); (tl, br, tr) ].

Definition coordinates (v : Vec3) : list JS.num := [xOf v; yOf v; zOf v].

(** The flat [vertices] array handed to the buffer attribute. *)
Definition vertices : list JS.num :=
  flat_map (fun tri : Vec3 * Vec3 * Vec3 =>
              let '(a, b, c) := tri in
              coordinates a ++ coordinates b ++ coordinates c)
           triangles.

(** The polyline of the far-plane rectangle. *)
Definition farPlaneRect : list Vec3 :=
  match points with
  | [_; p1; p2; p3; p4] => [p1; p2; p3; p4; p1]
  | _ => []
  end.

(** The two lengths printed on the view-plane label. *)
Definition viewPlaneSize : JS.num * JS.num := ((halfW * 2)%js, (halfH * 2)%js).

End Frustum.

End CameraFrustum.

Module SceneObject.

(** What [ObjectContent] mounts as the target object. *)
Inductive Node : Type :=
| TorusKnot
| Box
| Sphere
| Dna
| CustomModel (url : string)
| UploadPrompt.

(** A string in a condition: the empty string is falsy. *)
Definition truthy (u : option string) : option string :=
  match u with
  | Some (String c rest) => Some (String c rest)
  | _ => None
  end.

(** The objects mounted in the object group, one per satisfied condition
    on the object type (the bounding-box overlay, mounted beside them when
    [showBoundingBox], is left aside). *)
Definition objectContent (params : SimulationParams) : list Node :=
  (match objectType params with torus => [TorusKnot] | _ => [] end) ++
  (match objectType params with cube => [Box] | _ => [] end) ++
  (match objectType params with sphere => [Sphere] | _ => [] end) ++
  (match objectType params with dna => [Dna] | _ => [] end) ++
  (match objectType params, truthy (customModelUrl params) with
   | custom, Some url => [CustomModel url]
   | _, _ => []
   end) ++
  (match objectType params, truthy (customModelUrl params) with
   | custom, None => [UploadPrompt]
   | _, _ => []
   end).

(** The dimensions given to the bounding box of the object. *)
Definition dims (params : SimulationParams) (customDims : Vec3) : Vec3 :=
  match objectType params with
  | custom => customDims
  | o => getObjectDimensions (ObjectType_id o)
  end.

(** The callback of [useFrame] on the mesh behind [meshRef], if mounted,
    [delta] seconds after the previous frame. *)
Definition useFrame (params : SimulationParams) (delta : JS.num)
           (meshRef : option Placement) : option Placement :=
  match meshRef with
  | Some mesh =>
      if negb (isPaused params) && negb (isViewLocked params) then
        let '(rx, ry, rz) := rotation mesh in
        let '(px, py, pz) := position mesh in
        let ry' := (ry + delta * 0.2)%js in
        let rx' := (rx + delta * 0.1)%js in
        let py' := (JS.sin (ry' * 4) * 0.1)%js in
        let rz' := (JS.sin (ry' * 3) * 0.05)%js in
        Some {| position := (px, py', pz); rotation := (rx', ry', rz') |}
      else Some mesh
  | None => None
  end.

(** The whole of [handleDragEnd] on the mesh behind [meshRef]: the mesh it
    leaves and the objects it hands to [onParamChange], if that prop is
    given. *)
Definition handleDragEnd_ref (params : SimulationParams)
           (hasOnParamChange : bool) (meshRef : option Placement)
  : option Placement * list (list entry) :=
  match meshRef with
  | Some mesh =>
      if hasOnParamChange then
        (Some {| position := (JS.Fin 0, JS.Fin 0, JS.Fin 0);
                 rotation := rotation mesh |},
         [SceneContent.handleDragEnd params (zOf (position mesh))])
      else (Some mesh, [])
  | None => (None, [])
  end.

(** The frames of an animation, [deltas] apart. *)
Definition runFrames (params : SimulationParams) (deltas : list JS.num)
           (meshRef : option Placement) : option Placement :=
  fold_left (fun m delta => useFrame params delta m) deltas meshRef.

(** What the source does to the mesh behind [meshRef]: a frame of the
    animation, or the end of a drag in the God view, each with the
    parameters rendered at the time. *)
Inductive meshOp : Type :=
| FrameOp (params : SimulationParams) (delta : JS.num)
| DragEndOp (params : SimulationParams).

Definition applyMeshOp (meshRef : option Placement) (op : meshOp)
  : option Placement :=
  match op with
  | FrameOp params delta => useFrame params delta meshRef
  | DragEndOp params => fst (handleDragEnd_ref params true meshRef)
  end.

(** A freshly mounted group sits at the origin, unrotated. *)
Definition mounted : Placement := {|
  position := (JS.Fin 0, JS.Fin 0, JS.Fin 0);
  rotation := (JS.Fin 0, JS.Fin 0, JS.Fin 0)
|}.

End SceneObject.

(** three.js: a camera looks down its local negative z axis, and the Euler
    rotation [(0, theta, 0)] turns that axis to this direction. *)
Definition yawForward (theta : R) : R * R * R :=
  (- Rtrigo_def.sin theta, 0, - Rtrigo_def.cos theta).

(** ** AIPanel.tsx *)

Module AIPanel.

Inductive View : Type :=
| Loading
| NoResult
| Report (title explanation depthImplications technicalNote : string).

Definition render (result : option AIAnalysisResult) (isLoading : bool) : View :=
  if isLoading then Loading
  else match result with
       | None => NoResult
       | Some r =>
           Report (title r) (explanation r) (depthImplications r)
                  (technicalNote r)
       end.

End AIPanel.

(** ** The rest of Controls.tsx and App.tsx *)

Module Page.

(** The caption of the upload button. *)
Inductive UploadCaption : Type := SwitchCustomModel | UploadModel.

Definition uploadCaption (params : SimulationParams) : UploadCaption :=
  match objectType params, SceneObject.truthy (customModelUrl params) with
  | custom, Some _ => SwitchCustomModel
  | _, _ => UploadModel
  end.

(** The two eye positions of the legend under the canvas, in millimetres. *)
Definition legendLeft (params : SimulationParams) : JS.num :=
  (- ipd params / 2)%js.

Definition legendRight (params : SimulationParams) : JS.num :=
  (ipd params / 2)%js.

(** What the right column shows, through [AIPanel] when there is no error. *)
Inductive RightColumn : Type :=
| ShowsError (text : string)
| ShowsPanel (v : AIPanel.View).

Definition rightColumn (s : App.State) : RightColumn :=
  match App.rightPanel s with
  | App.ErrorMessage text => ShowsError text
  | App.AIPanel result isLoading => ShowsPanel (AIPanel.render result isLoading)
  end.

End Page.

(** ** Notions used to state properties of the handlers *)

(** The events whose handlers can write [ipd] or [targetDistance]. *)
Definition changesVergenceInputs (e : App.event) : bool :=
  match e with
  | App.NumberInput Controls.ipdSlider _
  | App.NumberInput Controls.distanceSlider _
  | App.RangeInput Controls.ipdSlider _
  | App.RangeInput Controls.distanceSlider _
  | App.DragEnd _ => true
  | _ => false
  end.

(** Vectors of reals, for the geometry of finite coordinates. *)
Definition V3 : Type := (R * R * R)%type.

Definition vsub (a b : V3) : V3 :=
  let '(ax, ay, az) := a in
  let '(bx, by_, bz) := b in
  (ax - bx, ay - by_, az - bz).

Definition cross (a b : V3) : V3 :=
  let '(ax, ay, az) := a in
  let '(bx, by_, bz) := b in
  (ay * bz - az * by_, az * bx - ax * bz, ax * by_ - ay * bx).

Definition dot (a b : V3) : R :=
  let '(ax, ay, az) := a in
  let '(bx, by_, bz) := b in
  ax * bx + ay * by_ + az * bz.

(** The real behind a finite number. *)
Definition realOf (a : JS.num) : R :=
  match a with JS.Fin x => x | _ => 0 end.

Definition realVec (v : Vec3) : V3 :=
  (realOf (xOf v), realOf (yOf v), realOf (zOf v)).

(** The front of the triangle [a, b, c], the side from which it is seen
    counter-clockwise, faces the point [q]. *)
Definition frontFaces (q : V3) (tri : Vec3 * Vec3 * Vec3) : Prop :=
  let '(a, b, c) := tri in
  0 < dot (cross (vsub (realVec b) (realVec a)) (vsub (realVec c) (realVec a)))
          (vsub q (realVec a)).

(** The parameters [p] with the two inputs of the half angle replaced. *)
Definition withGeometry (i d : R) (p : SimulationParams) : SimulationParams :=
  assign (K_ipd i) (assign (K_targetDistance d) p).

(** The three optical parameters within the bounds of their sliders. *)
Definition geometryInRange (p : SimulationParams) : Prop :=
  (JS.le MIN_IPD (ipd p) /\ JS.le (ipd p) MAX_IPD) /\
  (JS.le 15 (focalLength p) /\ JS.le (focalLength p) 200) /\
  (JS.le MIN_DISTANCE (targetDistance p) /\
   JS.le (targetDistance p) MAX_DISTANCE).

(** ** The optical geometry as the specification words it

    The three operations of the specification's OpticalGeometry component,
    over the reals; the code above is compared with them below. *)

Module Spec.

(** Degrees of an angle in radians. *)
Definition degrees (rad : R) : R := rad * (180 / Rtrigo1.PI).

(** [atan((ipd_m/2) / targetDistance)], in degrees. *)
Definition convergenceHalfAngle (interpupillaryDistanceMm targetDistanceM : R)
  : R :=
  degrees (Ratan.atan ((interpupillaryDistanceMm / 1000 / 2) / targetDistanceM)).

(** The full vergence angle is twice the half angle. *)
Definition vergence (interpupillaryDistanceMm targetDistanceM : R) : R :=
  2 * convergenceHalfAngle interpupillaryDistanceMm targetDistanceM.

(** [2 * atan(sensorHeight / (2*focalLength))] in degrees, for the fixed
    sensor height of 24 mm. *)
Definition fieldOfView (focalLengthMm : R) : R :=
  degrees (2 * Ratan.atan (24 / (2 * focalLengthMm))).

(** The symmetric offsets of the two eyes, left then right. *)
Definition eyeOffsets (interpupillaryDistanceMm : R) : R * R :=
  (- ((interpupillaryDistanceMm / 1000) / 2),
   (interpupillaryDistanceMm / 1000) / 2).

End Spec.

(** * Properties *)

(** ** Real analysis behind the angles *)

Section Analysis.

Lemma atan_pos (x : R) : 0 < x -> 0 < Ratan.atan x.
Proof.
  intros Hx. rewrite <- atan_0. now apply atan_increasing.
Qed.

Lemma atan_monotone (x y : R) : x <= y -> Ratan.atan x <= Ratan.atan y.
Proof.
  intros [Hlt | ->].
  - left. now apply atan_increasing.
  - right. reflexivity.
Qed.

Lemma rad_to_deg_pos : 0 < 180 / Rtrigo1.PI.
Proof.
  apply Rdiv_lt_0_compat; [lra | apply PI_RGT_0].
Qed.

Lemma lt_quotient (x y z : R) : 0 < z -> x * z < y -> x < y / z.
Proof.
  intros Hz H. replace x with (x * z / z) by (field; lra).
  unfold Rdiv. apply Rmult_lt_compat_r; [now apply Rinv_0_lt_compat | exact H].
Qed.

Lemma quotient_lt (x y z : R) : 0 < z -> y < x * z -> y / z < x.
Proof.
  intros Hz H. replace x with (x * z / z) by (field; lra).
  unfold Rdiv. apply Rmult_lt_compat_r; [now apply Rinv_0_lt_compat | exact H].
Qed.

(** The partial sums of the arctangent series enclose [atan x]. *)
Lemma atan_enclosure (x : R) (N : nat) :
  0 < x < 1 ->
  sum_f_R0 (tg_alt (Ratan_seq x)) (S (2 * N)) <= Ratan.atan x
  <= sum_f_R0 (tg_alt (Ratan_seq x)) (2 * N).
Proof.
  intros Hx.
  assert (H01 : 0 <= x <= 1) by lra.
  rewrite (atan_eq_ps_atan x Hx). unfold ps_atan.
  destruct (in_int x) as [Hin | Hout]; [| exfalso; apply Hout; lra].
  destruct (ps_atan_exists_1 x Hin) as [l Hl].
  apply alternated_series_ineq.
  - now apply Ratan_seq_decreasing.
  - now apply Ratan_seq_converging.
  - exact Hl.
Qed.

Lemma atan_024_bounds :
  0.2355447 < Ratan.atan (24 / 100) < 0.2355513.
Proof.
  assert (Hx : 0 < 24 / 100 < 1) by lra.
  destruct (atan_enclosure (24 / 100) 1 Hx) as [Hlo Hhi].
  unfold tg_alt, Ratan_seq in Hlo, Hhi. simpl in Hlo, Hhi.
  split; lra.
Qed.

Lemma PI_bounds : 3.1413 < Rtrigo1.PI < 3.1423.
Proof.
  destruct (PI_2_3_7_ineq 1) as [Hlo _].
  destruct (PI_2_3_7_ineq 2) as [_ Hhi].
  unfold tg_alt, PI_2_3_7_tg, Ratan_seq in Hlo, Hhi. simpl in Hlo, Hhi.
  split; lra.
Qed.

End Analysis.

(** ** Arithmetic of JavaScript numbers *)

Section Arithmetic.

Lemma sgn_pos (r : R) : 0 < r -> JS.sgn r = JS.Pos.
Proof.
  intros Hr. unfold JS.sgn.
  destruct (total_order_T r 0) as [[Hlt | Heq] | Hgt]; try reflexivity; lra.
Qed.

Lemma sgn_neg (r : R) : r < 0 -> JS.sgn r = JS.Neg.
Proof.
  intros Hr. unfold JS.sgn.
  destruct (total_order_T r 0) as [[Hlt | Heq] | Hgt]; try reflexivity; lra.
Qed.

Lemma sgn_zero : JS.sgn 0 = JS.Zero.
Proof.
  unfold JS.sgn.
  destruct (total_order_T 0 0) as [[Hlt | Heq] | Hgt]; try reflexivity; lra.
Qed.

Lemma sgn_cases (r : R) :
  (r < 0 /\ JS.sgn r = JS.Neg) \/ (r = 0 /\ JS.sgn r = JS.Zero)
  \/ (0 < r /\ JS.sgn r = JS.Pos).
Proof.
  destruct (total_order_T r 0) as [[Hlt | Heq] | Hgt].
  - left. split; [assumption | now apply sgn_neg].
  - right; left. subst. split; [reflexivity | apply sgn_zero].
  - right; right. split; [assumption | now apply sgn_pos].
Qed.

Lemma div_fin (x y : R) : y <> 0 -> (JS.Fin x / JS.Fin y)%js = JS.Fin (x / y).
Proof.
  intros Hy. unfold JS.div.
  destruct (sgn_cases y) as [[_ ->] | [[H0 _] | [_ ->]]];
    [reflexivity | contradiction | reflexivity].
Qed.

Lemma div_pinf_pos (y : R) : 0 < y -> (JS.PInf / JS.Fin y)%js = JS.PInf.
Proof.
  intros Hy. unfold JS.div. now rewrite sgn_pos.
Qed.

Lemma div_ninf_pos (y : R) : 0 < y -> (JS.NInf / JS.Fin y)%js = JS.NInf.
Proof.
  intros Hy. unfold JS.div. now rewrite sgn_pos.
Qed.

Lemma rad_to_deg : (180 / JS.PI)%js = JS.Fin (180 / Rtrigo1.PI).
Proof.
  unfold JS.PI. apply div_fin. apply PI_neq0.
Qed.

(** Clamping a number that is not [NaN] between two finite bounds. *)
Lemma clamp_in_range (lo hi : R) (val : JS.num) :
  lo <= hi -> JS.isNaN val = false ->
  exists r, JS.max lo (JS.min hi val) = JS.Fin r /\ lo <= r <= hi.
Proof.
  intros Hle Hval. destruct val as [v | | |]; simpl in *; try discriminate.
  - exists (Rmax lo (Rmin hi v)). split; [reflexivity |].
    unfold Rmax, Rmin.
    destruct (Rle_dec hi v); destruct (Rle_dec lo _); lra.
  - exists (Rmax lo hi). split; [reflexivity |].
    unfold Rmax. destruct (Rle_dec lo hi); lra.
  - exists lo. split; [reflexivity | lra].
Qed.

(** What lies between two finite bounds is finite. *)
Lemma le_le_fin (lo hi : R) (v : JS.num) :
  JS.le lo v -> JS.le v hi -> exists r, v = JS.Fin r /\ lo <= r <= hi.
Proof.
  destruct v as [r | | |]; simpl; intros H1 H2; try contradiction.
  exists r. split; [reflexivity | lra].
Qed.

End Arithmetic.

(** ** The optical geometry *)

Section Geometry.

Lemma halfBaseM_fin (p : SimulationParams) (i : R) :
  ipd p = JS.Fin i -> App.halfBaseM p = JS.Fin (i / 1000 / 2).
Proof.
  intros Hi. unfold App.halfBaseM. rewrite Hi.
  rewrite !div_fin by lra. reflexivity.
Qed.

(** On finite inputs with a non-zero distance the half angle of the effect
    is the specification's [convergenceHalfAngle]. *)
Lemma angleDeg_fin (p : SimulationParams) (i d : R) :
  ipd p = JS.Fin i -> targetDistance p = JS.Fin d -> d <> 0 ->
  App.angleDeg p = JS.Fin (Spec.convergenceHalfAngle i d).
Proof.
  intros Hi Hd Hnz. unfold App.angleDeg, App.angleRad.
  rewrite (halfBaseM_fin p i Hi), Hd, div_fin by assumption.
  rewrite rad_to_deg. reflexivity.
Qed.

Lemma computed_vergence_fin (p q : SimulationParams) (i d : R) :
  ipd p = JS.Fin i -> targetDistance p = JS.Fin d -> d <> 0 ->
  vergenceAngle (App.vergenceEffect p q) = JS.Fin (Spec.vergence i d).
Proof.
  intros Hi Hd Hnz. unfold App.vergenceEffect. simpl.
  rewrite (angleDeg_fin p i d Hi Hd Hnz). simpl.
  unfold Spec.vergence. f_equal. ring.
Qed.

(** The half angle only reads [ipd] and [targetDistance]. *)
Lemma angleDeg_ext (p q : SimulationParams) :
  ipd p = ipd q -> targetDistance p = targetDistance q ->
  App.angleDeg p = App.angleDeg q.
Proof.
  intros Hi Hd. unfold App.angleDeg, App.angleRad, App.halfBaseM.
  now rewrite Hi, Hd.
Qed.

Lemma fov_fin (p : SimulationParams) (f : R) :
  focalLength p = JS.Fin f -> 0 < f ->
  SimulationCanvas.fov p = JS.Fin (Spec.fieldOfView f).
Proof.
  intros Hf Hpos.
  unfold SimulationCanvas.fov, SimulationCanvas.fovRadians,
    SimulationCanvas.sensorHeight.
  rewrite Hf. cbn [JS.mul].
  rewrite div_fin by lra. cbn [JS.atan JS.mul].
  unfold JS.PI. rewrite div_fin by apply PI_neq0.
  f_equal. unfold Spec.fieldOfView, Spec.degrees. field. apply PI_neq0.
Qed.

Lemma fieldOfView_50_bounds : 26.985 < Spec.fieldOfView 50 < 26.995.
Proof.
  unfold Spec.fieldOfView, Spec.degrees.
  replace (24 / (2 * 50)) with (24 / 100) by field.
  pose proof atan_024_bounds as [Ha1 Ha2].
  pose proof PI_bounds as [Hp1 Hp2].
  set (a := Ratan.atan (24 / 100)) in *.
  assert (Hpi : 0 < Rtrigo1.PI) by lra.
  replace (2 * a * (180 / Rtrigo1.PI)) with (360 * a / Rtrigo1.PI)
    by (field; lra).
  split.
  - apply lt_quotient; [assumption | nra].
  - apply quotient_lt; [assumption | nra].
Qed.

End Geometry.

(** ** Field of view and eye offsets *)

Section Cameras.

(** C2: for every strictly positive focal length both [fov] computations
    (of [SimulationCanvas] and of [CameraVisualizer]) equal
    [2 * atan(24 / (2 * focalLength))] converted to degrees, the sensor
    height being the constant 24; at 50 mm this is [2 * atan(12/50)] in
    degrees, which lies between 26.985 and 26.995, that is 26.99 to two
    decimals. *)
Theorem fov_formula (p : SimulationParams) (f : R) :
  focalLength p = JS.Fin f -> 0 < f ->
  SimulationCanvas.fov p
    = JS.Fin (2 * Ratan.atan (24 / (2 * f)) * (180 / Rtrigo1.PI)) /\
  CameraVisualizer.fov p = SimulationCanvas.fov p /\
  SimulationCanvas.sensorHeight = JS.Fin 24 /\
  CameraVisualizer.sensorHeight = JS.Fin 24 /\
  (f = 50 ->
   SimulationCanvas.fov p
     = JS.Fin (2 * Ratan.atan (12 / 50) * (180 / Rtrigo1.PI)) /\
   26.985 < 2 * Ratan.atan (12 / 50) * (180 / Rtrigo1.PI) < 26.995).
Proof.
  intros Hf Hpos.
  assert (Hfov := fov_fin p f Hf Hpos).
  unfold Spec.fieldOfView, Spec.degrees in Hfov.
  split; [exact Hfov |].
  do 3 (split; [reflexivity |]).
  intros ->. replace (12 / 50) with (24 / (2 * 50)) by field.
  split; [exact Hfov |].
  pose proof fieldOfView_50_bounds as H.
  unfold Spec.fieldOfView, Spec.degrees in H. exact H.
Qed.

Lemma fov_formula_witness :
  SimulationCanvas.fov DEFAULT_PARAMS
    = JS.Fin (2 * Ratan.atan (12 / 50) * (180 / Rtrigo1.PI)) /\
  26.985 < 2 * Ratan.atan (12 / 50) * (180 / Rtrigo1.PI) < 26.995.
Proof.
  assert (H50 : 0 < 50) by lra.
  destruct (fov_formula DEFAULT_PARAMS 50 eq_refl H50) as (_ & _ & _ & _ & H).
  apply H. reflexivity.
Defined.

(** Multiplying by 0.001 where the effect divides by 1000 is the same
    number, also on the special values. *)
Lemma halfBaseLine_eq (a : JS.num) :
  ((a * 0.001) / 2)%js = ((a / 1000) / 2)%js.
Proof.
  destruct a as [r | | |]; cbn [JS.mul JS.div].
  - rewrite !(sgn_pos 2), (sgn_pos 1000) by lra.
    cbn [JS.div]. rewrite (sgn_pos 2) by lra. f_equal. lra.
  - rewrite (sgn_pos 0.001), !(sgn_pos 1000) by lra.
    cbn [JS.inf_of JS.div]. now rewrite (sgn_pos 2) by lra.
  - rewrite (sgn_pos 0.001), !(sgn_pos 1000) by lra.
    cbn [JS.inf_of JS.flip JS.div]. now rewrite (sgn_pos 2) by lra.
  - reflexivity.
Qed.

(** C3: the two eye cameras, and the two camera meshes of the God view, sit
    at the lateral offsets [-(ipd/1000)/2] and [+(ipd/1000)/2] along the x
    axis, at the same height 0 and the same depth, for every value of
    [ipd]; at 64 mm the offsets are -0.032 m and +0.032 m. *)
Theorem eye_offsets (p : SimulationParams) :
  position (SimulationCanvas.leftCamera p)
    = ((- ((ipd p / 1000) / 2))%js, JS.Fin 0, targetDistance p) /\
  position (SimulationCanvas.rightCamera p)
    = (((ipd p / 1000) / 2)%js, JS.Fin 0, targetDistance p) /\
  position (CameraVisualizer.leftMesh p)
    = position (SimulationCanvas.leftCamera p) /\
  position (CameraVisualizer.rightMesh p)
    = position (SimulationCanvas.rightCamera p) /\
  (forall i, ipd p = JS.Fin i ->
     (xOf (position (SimulationCanvas.leftCamera p)),
      xOf (position (SimulationCanvas.rightCamera p)))
     = (JS.Fin (fst (Spec.eyeOffsets i)), JS.Fin (snd (Spec.eyeOffsets i)))) /\
  (ipd p = JS.Fin 64 ->
     xOf (position (SimulationCanvas.leftCamera p)) = JS.Fin (- 0.032) /\
     xOf (position (SimulationCanvas.rightCamera p)) = JS.Fin 0.032).
Proof.
  assert (HL : position (SimulationCanvas.leftCamera p)
               = ((- ((ipd p / 1000) / 2))%js, JS.Fin 0, targetDistance p)).
  { unfold SimulationCanvas.leftCamera, SimulationCanvas.halfBaseLine,
      SimulationCanvas.camZ.
    cbn [position]. now rewrite halfBaseLine_eq. }
  assert (HR : position (SimulationCanvas.rightCamera p)
               = (((ipd p / 1000) / 2)%js, JS.Fin 0, targetDistance p)).
  { unfold SimulationCanvas.rightCamera, SimulationCanvas.halfBaseLine,
      SimulationCanvas.camZ.
    cbn [position]. now rewrite halfBaseLine_eq. }
  split; [exact HL |]. split; [exact HR |].
  do 2 (split; [reflexivity |]).
  rewrite HL, HR. unfold xOf. cbn [fst].
  split.
  - intros i Hi. rewrite Hi, !div_fin by lra. reflexivity.
  - intros H64. rewrite H64, !div_fin by lra. cbn [JS.neg].
    split; f_equal; lra.
Qed.

Lemma eye_offsets_witness :
  xOf (position (SimulationCanvas.leftCamera DEFAULT_PARAMS)) = JS.Fin (- 0.032) /\
  xOf (position (SimulationCanvas.rightCamera DEFAULT_PARAMS)) = JS.Fin 0.032.
Proof.
  apply (eye_offsets DEFAULT_PARAMS). reflexivity.
Defined.

End Cameras.

(** ** The convergence angle *)

Section Convergence.

(** The half angle of the effect, as a function of the two numbers it
    reads. *)
Lemma angleDeg_unfold (p : SimulationParams) :
  App.angleDeg p
  = (JS.atan (((ipd p / 1000) / 2) / targetDistance p)
     * JS.Fin (180 / Rtrigo1.PI))%js.
Proof.
  unfold App.angleDeg, App.angleRad, App.halfBaseM. now rewrite rad_to_deg.
Qed.

(** C8: with [ipd = 0] the vergence angle the effect computes is 0 for
    every strictly positive target distance, [+Infinity] included. *)
Theorem cyclops_vergence_zero (p q : SimulationParams) :
  ipd p = JS.Fin 0 -> JS.lt (JS.Fin 0) (targetDistance p) ->
  vergenceAngle (App.vergenceEffect p q) = JS.Fin 0.
Proof.
  intros Hi Hd. unfold App.vergenceEffect. cbn [assign vergenceAngle].
  rewrite angleDeg_unfold, Hi, !div_fin by lra.
  destruct (targetDistance p) as [d | | |]; cbn [JS.lt] in Hd;
    try contradiction.
  - rewrite div_fin by lra. cbn [JS.atan JS.mul].
    replace (0 / 1000 / 2 / d) with 0 by (field; lra).
    rewrite atan_0. f_equal. ring.
  - cbn [JS.div JS.atan JS.mul]. rewrite atan_0. f_equal. ring.
Qed.

Lemma cyclops_vergence_zero_witness :
  vergenceAngle
    (App.vergenceEffect (assign (K_ipd 0) DEFAULT_PARAMS) DEFAULT_PARAMS)
  = JS.Fin 0.
Proof.
  apply cyclops_vergence_zero; [reflexivity | simpl; lra].
Defined.

Lemma sameDeps_refl (d : JS.num * JS.num) : App.sameDeps d d = true.
Proof.
  unfold App.sameDeps.
  destruct (JS.same_dec (fst d) (fst d)) as [_ | H]; [| now elim H].
  destruct (JS.same_dec (snd d) (snd d)) as [_ | H]; [| now elim H].
  reflexivity.
Qed.

Lemma sameDeps_eq (d d' : JS.num * JS.num) :
  App.sameDeps d d' = true -> d = d'.
Proof.
  unfold App.sameDeps. destruct d as [a b], d' as [a' b']. cbn [fst snd].
  destruct (JS.same_dec a a'); [| discriminate].
  destruct (JS.same_dec b b'); [| discriminate].
  intros _. now subst.
Qed.

(** Once the effect has run, it is no longer due. *)
Lemma flushEffect_settles (s : App.State) :
  App.effectPending (App.flushEffect s) = false.
Proof.
  unfold App.flushEffect.
  destruct (App.effectPending s) eqn:Hp; [| exact Hp].
  unfold App.effectPending. cbn. now rewrite sameDeps_refl.
Qed.

(** C9: recomputing the vergence angle of a parameter state twice gives the
    state that recomputing it once gives, and running the effect step of
    the application twice gives what running it once gives. *)
Theorem vergence_recomputation_idempotent :
  (forall p : SimulationParams,
     let recompute q := App.vergenceEffect q q in
     recompute (recompute p) = recompute p /\
     vergenceAngle (recompute (recompute p)) = vergenceAngle (recompute p) /\
     ipd (recompute p) = ipd p /\
     targetDistance (recompute p) = targetDistance p) /\
  (forall s : App.State,
     App.flushEffect (App.flushEffect s) = App.flushEffect s).
Proof.
  split.
  - intros p recompute.
    assert (H : recompute (recompute p) = recompute p).
    { unfold recompute, App.vergenceEffect. cbn [assign].
      rewrite (angleDeg_ext _ p) by reflexivity. reflexivity. }
    split; [exact H |]. split; [now rewrite H |]. split; reflexivity.
  - intros s. unfold App.flushEffect at 1.
    now rewrite flushEffect_settles.
Qed.

End Convergence.

(** ** Monotonicity and totality of the half angle *)

Section HalfAngle.

Lemma degrees_le (a b : R) : a <= b -> Spec.degrees a <= Spec.degrees b.
Proof.
  intros H. unfold Spec.degrees.
  apply Rmult_le_compat_r; [left; apply rad_to_deg_pos | exact H].
Qed.

Lemma degrees_lt (a b : R) : a < b -> Spec.degrees a < Spec.degrees b.
Proof.
  intros H. unfold Spec.degrees.
  apply Rmult_lt_compat_r; [apply rad_to_deg_pos | exact H].
Qed.

Lemma ratio_le_ipd (i1 i2 d : R) :
  0 < d -> i1 <= i2 -> i1 / 1000 / 2 / d <= i2 / 1000 / 2 / d.
Proof.
  intros Hd Hi. unfold Rdiv at 1 4.
  apply Rmult_le_compat_r; [left; now apply Rinv_0_lt_compat | lra].
Qed.

Lemma ratio_lt_ipd (i1 i2 d : R) :
  0 < d -> i1 < i2 -> i1 / 1000 / 2 / d < i2 / 1000 / 2 / d.
Proof.
  intros Hd Hi. unfold Rdiv at 1 4.
  apply Rmult_lt_compat_r; [now apply Rinv_0_lt_compat | lra].
Qed.

Lemma ratio_le_distance (i d1 d2 : R) :
  0 <= i -> 0 < d1 -> d1 <= d2 -> i / 1000 / 2 / d2 <= i / 1000 / 2 / d1.
Proof.
  intros Hi Hd1 Hd. unfold Rdiv at 1 4.
  apply Rmult_le_compat_l; [lra |].
  apply Rinv_le_contravar; assumption.
Qed.

Lemma ratio_lt_distance (i d1 d2 : R) :
  0 < i -> 0 < d1 -> d1 < d2 -> i / 1000 / 2 / d2 < i / 1000 / 2 / d1.
Proof.
  intros Hi Hd1 Hd. unfold Rdiv at 1 4.
  apply Rmult_lt_compat_l; [lra |].
  apply Rinv_lt_contravar; [| assumption].
  apply Rmult_lt_0_compat; lra.
Qed.

Lemma angleDeg_withGeometry (i d : R) (p : SimulationParams) :
  0 < d ->
  App.angleDeg (withGeometry i d p) = JS.Fin (Spec.convergenceHalfAngle i d).
Proof.
  intros Hd. apply angleDeg_fin; [reflexivity | reflexivity | lra].
Qed.

(** C6: at a strictly positive target distance the convergence half angle
    grows with the interpupillary distance, and for a non-negative
    interpupillary distance it shrinks as the target distance grows; both
    strictly when the inputs differ (and the interpupillary distance is
    positive). *)
Theorem half_angle_monotone (p : SimulationParams) :
  (forall i1 i2 d, 0 < d -> i1 <= i2 ->
     JS.le (App.angleDeg (withGeometry i1 d p))
           (App.angleDeg (withGeometry i2 d p))) /\
  (forall i1 i2 d, 0 < d -> i1 < i2 ->
     JS.lt (App.angleDeg (withGeometry i1 d p))
           (App.angleDeg (withGeometry i2 d p))) /\
  (forall i d1 d2, 0 <= i -> 0 < d1 -> d1 <= d2 ->
     JS.le (App.angleDeg (withGeometry i d2 p))
           (App.angleDeg (withGeometry i d1 p))) /\
  (forall i d1 d2, 0 < i -> 0 < d1 -> d1 < d2 ->
     JS.lt (App.angleDeg (withGeometry i d2 p))
           (App.angleDeg (withGeometry i d1 p))).
Proof.
  split; [| split; [| split]].
  - intros i1 i2 d Hd Hi. rewrite !angleDeg_withGeometry by assumption.
    cbn [JS.le]. apply degrees_le, atan_monotone, ratio_le_ipd; assumption.
  - intros i1 i2 d Hd Hi. rewrite !angleDeg_withGeometry by assumption.
    cbn [JS.lt]. apply degrees_lt, atan_increasing, ratio_lt_ipd; assumption.
  - intros i d1 d2 Hi Hd1 Hd. rewrite !angleDeg_withGeometry by lra.
    cbn [JS.le].
    apply degrees_le, atan_monotone, ratio_le_distance; assumption.
  - intros i d1 d2 Hi Hd1 Hd. rewrite !angleDeg_withGeometry by lra.
    cbn [JS.lt].
    apply degrees_lt, atan_increasing, ratio_lt_distance; assumption.
Qed.

Lemma half_angle_monotone_witness :
  JS.lt (App.angleDeg (withGeometry 60 2.5 DEFAULT_PARAMS))
        (App.angleDeg (withGeometry 64 2.5 DEFAULT_PARAMS)) /\
  JS.lt (App.angleDeg (withGeometry 64 10 DEFAULT_PARAMS))
        (App.angleDeg (withGeometry 64 2.5 DEFAULT_PARAMS)).
Proof.
  destruct (half_angle_monotone DEFAULT_PARAMS) as (_ & Hi & _ & Hd).
  split; [apply Hi | apply Hd]; lra.
Defined.

End HalfAngle.

Section Totality.

Lemma degrees_atan_range (x : R) :
  -90 < Ratan.atan x * (180 / Rtrigo1.PI) < 90.
Proof.
  pose proof (atan_bound x) as [Hlo Hhi].
  pose proof PI_RGT_0 as Hpi.
  replace (Ratan.atan x * (180 / Rtrigo1.PI))
    with (180 * Ratan.atan x / Rtrigo1.PI) by (field; lra).
  split.
  - apply lt_quotient; [lra | lra].
  - apply quotient_lt; [lra | lra].
Qed.

End Totality.

Section Failure.

Lemma angleDeg_infinite_distance (p : SimulationParams) (i : R) :
  ipd p = JS.Fin i ->
  targetDistance p = JS.PInf \/ targetDistance p = JS.NInf ->
  App.angleDeg p = JS.Fin 0.
Proof.
  intros Hi Hd. rewrite angleDeg_unfold, Hi, !div_fin by lra.
  destruct Hd as [-> | ->]; cbn [JS.div JS.atan JS.mul];
    rewrite atan_0; f_equal; ring.
Qed.

Lemma angleDeg_nan (p : SimulationParams) :
  ipd p = JS.NaN \/ targetDistance p = JS.NaN -> App.angleDeg p = JS.NaN.
Proof.
  intros H. rewrite angleDeg_unfold.
  destruct H as [-> | ->]; [reflexivity |].
  destruct (ipd p) as [i | | |];
    rewrite ?div_fin, ?div_pinf_pos, ?div_ninf_pos by lra; reflexivity.
Qed.

(** C4, as the code has it: the half-angle computation never raises, and
    what it returns is a failure only as [NaN].  For every finite [ipd]
    and every finite target distance other than zero, the negative ones
    included, it returns [atan((ipd/1000/2) / targetDistance)] in degrees
    and not [NaN]; so it succeeds on every strictly positive finite target
    distance.  For a finite [ipd] and an infinite target distance it
    returns 0, and it returns [NaN] when [ipd] or the target distance is
    [NaN].  Nothing is said of a target distance of zero. *)
Theorem half_angle_total (p : SimulationParams) :
  (forall i d, ipd p = JS.Fin i -> targetDistance p = JS.Fin d -> d <> 0 ->
     ~ App.halfAngleFails p /\
     App.angleDeg p = JS.Fin (Spec.convergenceHalfAngle i d)) /\
  (forall i, ipd p = JS.Fin i ->
     targetDistance p = JS.PInf \/ targetDistance p = JS.NInf ->
     ~ App.halfAngleFails p /\ App.angleDeg p = JS.Fin 0) /\
  (ipd p = JS.NaN \/ targetDistance p = JS.NaN -> App.halfAngleFails p).
Proof.
  split; [| split].
  - intros i d Hi Hd Hnz.
    assert (H : App.angleDeg p = JS.Fin (Spec.convergenceHalfAngle i d))
      by (apply angleDeg_fin; assumption).
    split; [| exact H].
    unfold App.halfAngleFails. rewrite H. discriminate.
  - intros i Hi Hd.
    assert (H : App.angleDeg p = JS.Fin 0)
      by (apply (angleDeg_infinite_distance p i); assumption).
    split; [| exact H].
    unfold App.halfAngleFails. rewrite H. discriminate.
  - intros H. unfold App.halfAngleFails.
    now rewrite (angleDeg_nan p H).
Qed.

Lemma half_angle_total_witness :
  ~ App.halfAngleFails (assign (K_targetDistance (JS.Fin (- 1))) DEFAULT_PARAMS) /\
  App.angleDeg (assign (K_targetDistance (JS.Fin (- 1))) DEFAULT_PARAMS)
  = JS.Fin (Spec.convergenceHalfAngle 64 (- 1)).
Proof.
  apply (half_angle_total
           (assign (K_targetDistance (JS.Fin (- 1))) DEFAULT_PARAMS));
    [reflexivity | reflexivity | lra].
Defined.

(** At a target distance of -1 the computation does not fail: with the
    default [ipd] of 64 mm it returns a negative angle; and at an infinite
    target distance it returns 0.  So failure is not the same as a target
    distance that is non-positive or not finite. *)
Lemma half_angle_at_nonpositive_distance :
  (exists r, App.angleDeg (assign (K_targetDistance (JS.Fin (- 1))) DEFAULT_PARAMS)
             = JS.Fin r /\ r < 0) /\
  App.angleDeg (assign (K_targetDistance JS.PInf) DEFAULT_PARAMS) = JS.Fin 0 /\
  ~ (forall p : SimulationParams,
       App.halfAngleFails p <->
       ~ (JS.isFinite (targetDistance p) /\ JS.lt 0 (targetDistance p))).
Proof.
  assert (Hneg : App.angleDeg
                   (assign (K_targetDistance (JS.Fin (- 1))) DEFAULT_PARAMS)
                 = JS.Fin (Spec.convergenceHalfAngle 64 (- 1)))
    by (apply angleDeg_fin; [reflexivity | reflexivity | lra]).
  split.
  { exists (Spec.convergenceHalfAngle 64 (- 1)). split; [exact Hneg |].
    unfold Spec.convergenceHalfAngle.
    replace (64 / 1000 / 2 / - 1) with (- (32 / 1000)) by field.
    rewrite atan_opp. pose proof (atan_pos (32 / 1000)) as Ha.
    pose proof rad_to_deg_pos as Hk. unfold Spec.degrees.
    assert (0 < Ratan.atan (32 / 1000) * (180 / Rtrigo1.PI))
      by (apply Rmult_lt_0_compat; [apply Ha; lra | exact Hk]).
    lra. }
  split.
  { apply (angleDeg_infinite_distance _ 64); [reflexivity | now left]. }
  intros Hclaim.
  destruct (Hclaim (assign (K_targetDistance (JS.Fin (- 1))) DEFAULT_PARAMS))
    as [_ Hfail].
  assert (Hf : App.halfAngleFails
                 (assign (K_targetDistance (JS.Fin (- 1))) DEFAULT_PARAMS)).
  { apply Hfail. cbn. intros [_ Hlt]. lra. }
  unfold App.halfAngleFails in Hf. rewrite Hneg in Hf. discriminate.
Qed.

End Failure.

(** ** The application as a transition system *)

Section Machine.

Variable parseFloat : string -> JS.num.

Lemma params_fold_setParams (l : list SetStateAction) (s : App.State) :
  App.params (fold_left (fun st f => App.setParams f st) l s)
  = fold_left (fun q f => f q) l (App.params s).
Proof.
  revert s. induction l as [| f l IH]; intros s; [reflexivity |].
  cbn [fold_left]. now rewrite IH.
Qed.

Lemma effectDeps_fold_setParams (l : list SetStateAction) (s : App.State) :
  App.effectDeps (fold_left (fun st f => App.setParams f st) l s)
  = App.effectDeps s.
Proof.
  revert s. induction l as [| f l IH]; intros s; [reflexivity |].
  cbn [fold_left]. now rewrite IH.
Qed.

(** A handler changes the parameters only through its [setParams] calls. *)
Lemma params_handle (e : App.event) (s : App.State) :
  App.params (App.handle parseFloat e s)
  = fold_left (fun q f => f q) (App.paramUpdates parseFloat e s) (App.params s).
Proof.
  unfold App.handle. rewrite <- params_fold_setParams.
  destruct e as [| | | | | | | | | [thrown | result] |]; reflexivity.
Qed.

Lemma effectDeps_handle (e : App.event) (s : App.State) :
  App.effectDeps (App.handle parseFloat e s) = App.effectDeps s.
Proof.
  unfold App.handle.
  rewrite <- (effectDeps_fold_setParams (App.paramUpdates parseFloat e s) s).
  destruct e as [| | | | | | | | | [thrown | result] |]; reflexivity.
Qed.

(** The updates of the number box of a slider. *)
Lemma numberInput_cases (lo hi : JS.num) (value : string) :
  (JS.isNaN (parseFloat value) = true /\
   Slider.numberInput_onChange parseFloat lo hi value = []) \/
  (JS.isNaN (parseFloat value) = false /\
   Slider.numberInput_onChange parseFloat lo hi value
   = [JS.max lo (JS.min hi (parseFloat value))]).
Proof.
  unfold Slider.numberInput_onChange.
  destruct (JS.isNaN (parseFloat value)); [left | right]; split; reflexivity.
Qed.

(** No handler writes [vergenceAngle]. *)
Lemma vergenceAngle_handle (e : App.event) (s : App.State) :
  vergenceAngle (App.params (App.handle parseFloat e s))
  = vergenceAngle (App.params s).
Proof.
  rewrite params_handle.
  destruct e as [sl v | sl v | b | [url |] | t | m | | z | | r |];
    cbn [App.paramUpdates]; try reflexivity.
  - destruct (numberInput_cases (Controls.slider_min sl)
                (Controls.slider_max sl) v) as [[_ ->] | [_ ->]];
      [reflexivity | destruct sl; reflexivity].
  - destruct sl; reflexivity.
  - destruct t; reflexivity.
Qed.

Lemma slider_bounds (sl : Controls.slider) :
  exists lo hi, Controls.slider_min sl = JS.Fin lo /\
                Controls.slider_max sl = JS.Fin hi /\ lo <= hi.
Proof.
  destruct sl; cbn; unfold MIN_IPD, MAX_IPD, MIN_DISTANCE, MAX_DISTANCE;
    do 2 eexists; (split; [reflexivity |]); (split; [reflexivity |]); lra.
Qed.

(** A slider update with a value within the slider's bounds keeps the
    geometry in range. *)
Lemma slider_onChange_inRange (sl : Controls.slider) (v : JS.num)
      (p : SimulationParams) :
  JS.le (Controls.slider_min sl) v -> JS.le v (Controls.slider_max sl) ->
  geometryInRange p -> geometryInRange (Controls.slider_onChange sl v p).
Proof.
  intros Hlo Hhi (Hi & Hf & Hd).
  destruct sl; cbn in Hlo, Hhi |- *; unfold geometryInRange;
    cbn [assign ipd focalLength targetDistance]; repeat split;
    try tauto; assumption.
Qed.

Lemma clamp_le (sl : Controls.slider) (val : JS.num) :
  JS.isNaN val = false ->
  JS.le (Controls.slider_min sl)
        (JS.max (Controls.slider_min sl) (JS.min (Controls.slider_max sl) val))
  /\ JS.le (JS.max (Controls.slider_min sl)
                   (JS.min (Controls.slider_max sl) val))
           (Controls.slider_max sl).
Proof.
  intros Hval. destruct (slider_bounds sl) as (lo & hi & -> & -> & Hle).
  destruct (clamp_in_range lo hi val Hle Hval) as (r & -> & Hr).
  cbn [JS.le]. lra.
Qed.

(** Every enabled event keeps the geometry in range. *)
Lemma handle_inRange (e : App.event) (s : App.State) :
  App.enabled parseFloat e s ->
  geometryInRange (App.params s) ->
  geometryInRange (App.params (App.handle parseFloat e s)).
Proof.
  intros Hen Hinv. rewrite params_handle.
  destruct e as [sl v | sl v | b | [url |] | t | m | | z | | r |];
    cbn [App.paramUpdates fold_left map]; try exact Hinv.
  - destruct (numberInput_cases (Controls.slider_min sl)
                (Controls.slider_max sl) v) as [[_ ->] | [Hv ->]];
      [exact Hinv |].
    cbn [map fold_left]. destruct (clamp_le sl _ Hv) as [H1 H2].
    now apply slider_onChange_inRange.
  - destruct Hen as [H1 H2]. cbn [Slider.rangeInput_onChange map fold_left].
    now apply slider_onChange_inRange.
  - destruct t; exact Hinv.
  - destruct Hen as [_ ->]. destruct Hinv as (Hi & Hf & Hd1 & Hd2).
    unfold geometryInRange, SimulationCanvas.onParamChange,
      SceneContent.handleDragEnd.
    cbn [spread fold_left assign ipd focalLength targetDistance].
    split; [exact Hi |]. split; [exact Hf |].
    destruct (le_le_fin _ _ _ Hd1 Hd2) as (d & -> & Hd).
    unfold MIN_DISTANCE, MAX_DISTANCE. cbn. unfold Rmax.
    destruct (Rle_dec _ _); lra.
Qed.

End Machine.

Section Reachability.

Variable parseFloat : string -> JS.num.

Lemma params_flushEffect_pending (s : App.State) :
  App.effectPending s = true ->
  App.params (App.flushEffect s)
  = App.vergenceEffect (App.params s) (App.params s).
Proof.
  intros Hp. unfold App.flushEffect. now rewrite Hp.
Qed.

(** In every reachable state the interpupillary distance, the focal length
    and the target distance lie within the bounds of their sliders. *)
Lemma reachable_inRange (s : App.State) :
  App.reachable parseFloat s -> geometryInRange (App.params s).
Proof.
  induction 1 as [| s s' Hreach IH Hstep].
  - unfold geometryInRange, MIN_IPD, MAX_IPD, MIN_DISTANCE, MAX_DISTANCE.
    cbn. repeat split; lra.
  - destruct Hstep as [s Hp | e s Hp Hen].
    + rewrite (params_flushEffect_pending s Hp). exact IH.
    + now apply handle_inRange.
Qed.

(** The dependency array React remembers in a state where the effect is not
    due is the one of the current parameters. *)
Lemma settled_deps (s : App.State) :
  App.effectPending s = false ->
  App.effectDeps s = Some (App.deps (App.params s)).
Proof.
  unfold App.effectPending. destruct (App.effectDeps s) as [d |];
    [| discriminate].
  intros H. apply negb_false_iff, sameDeps_eq in H. now subst.
Qed.

(** In every reachable state where the effect is not due, the stored angle
    is the one the effect computes from the current parameters. *)
Lemma reachable_settled (s : App.State) :
  App.reachable parseFloat s -> App.effectPending s = false ->
  vergenceAngle (App.params s) = (App.angleDeg (App.params s) * 2)%js.
Proof.
  induction 1 as [| s s' Hreach IH Hstep]; [discriminate |].
  destruct Hstep as [s Hp | e s Hp Hen]; intros Hsettled.
  - rewrite (params_flushEffect_pending s Hp).
    unfold App.vergenceEffect. cbn [assign vergenceAngle].
    reflexivity.
  - rewrite vergenceAngle_handle, (IH Hp). f_equal.
    pose proof (settled_deps _ Hsettled) as Hd'.
    rewrite effectDeps_handle, (settled_deps _ Hp) in Hd'.
    injection Hd' as Hi Hd. now apply angleDeg_ext.
Qed.

(** An event that changes [ipd] or [targetDistance] makes the effect due. *)
Lemma change_makes_pending (e : App.event) (s : App.State) :
  App.effectPending s = false ->
  App.deps (App.params (App.handle parseFloat e s)) <> App.deps (App.params s) ->
  App.effectPending (App.handle parseFloat e s) = true.
Proof.
  intros Hp Hchg.
  destruct (App.effectPending (App.handle parseFloat e s)) eqn:Hp';
    [reflexivity |].
  apply settled_deps in Hp'. rewrite effectDeps_handle in Hp'.
  rewrite (settled_deps _ Hp) in Hp'. injection Hp' as H1 H2.
  elim Hchg. unfold App.deps. now rewrite H1, H2.
Qed.

(** While the effect is due, the only step is the effect. *)
Lemma pending_step_is_effect (s s' : App.State) :
  App.effectPending s = true -> App.step parseFloat s s' ->
  s' = App.flushEffect s.
Proof.
  intros Hp Hstep. destruct Hstep as [s _ | e s Hp' _]; [reflexivity |].
  rewrite Hp in Hp'. discriminate.
Qed.

End Reachability.

(** ** The vergence angle as derived state *)

Section Vergence.

Lemma vergence_default_pos : 0 < Spec.vergence 64 2.5.
Proof.
  unfold Spec.vergence, Spec.convergenceHalfAngle, Spec.degrees.
  assert (0 < Ratan.atan (64 / 1000 / 2 / 2.5)) by (apply atan_pos; lra).
  pose proof rad_to_deg_pos.
  assert (0 < Ratan.atan (64 / 1000 / 2 / 2.5) * (180 / Rtrigo1.PI))
    by now apply Rmult_lt_0_compat.
  lra.
Qed.

Lemma reachable_flushEffect (parseFloat : string -> JS.num) (s : App.State) :
  App.reachable parseFloat s -> App.reachable parseFloat (App.flushEffect s).
Proof.
  intros Hr. destruct (App.effectPending s) eqn:Hp.
  - apply (App.reach_step parseFloat s); [exact Hr |].
    now apply App.step_effect.
  - unfold App.flushEffect. now rewrite Hp.
Qed.

(** C1, as the code has it: in every reachable state in which the vergence
    effect is not due, [ipd] and [targetDistance] are finite, the distance
    is positive, and the stored [vergenceAngle] is exactly twice
    [atan((ipd/1000/2) / targetDistance)] in degrees.  An event that changes
    [ipd] or [targetDistance] makes the effect due; while it is due its run
    is the only step, and that run recomputes the angle from the current
    [ipd] and [targetDistance] and leaves the effect no longer due.  No
    event handler writes [vergenceAngle]. *)
Theorem vergence_after_effect (parseFloat : string -> JS.num) (s : App.State) :
  App.reachable parseFloat s ->
  (App.effectPending s = false ->
   exists i d,
     ipd (App.params s) = JS.Fin i /\ targetDistance (App.params s) = JS.Fin d /\
     0 < d /\ vergenceAngle (App.params s) = JS.Fin (Spec.vergence i d)) /\
  (exists i d,
     ipd (App.params s) = JS.Fin i /\ targetDistance (App.params s) = JS.Fin d /\
     ipd (App.params (App.flushEffect s)) = JS.Fin i /\
     targetDistance (App.params (App.flushEffect s)) = JS.Fin d /\
     vergenceAngle (App.params (App.flushEffect s)) = JS.Fin (Spec.vergence i d)) /\
  App.effectPending (App.flushEffect s) = false /\
  (App.effectPending s = true ->
   forall s', App.step parseFloat s s' -> s' = App.flushEffect s) /\
  (forall e, App.effectPending s = false ->
     App.deps (App.params (App.handle parseFloat e s)) <> App.deps (App.params s) ->
     App.effectPending (App.handle parseFloat e s) = true) /\
  (forall e, vergenceAngle (App.params (App.handle parseFloat e s))
             = vergenceAngle (App.params s)).
Proof.
  intros Hreach.
  assert (Hfin : forall t, App.reachable parseFloat t ->
            exists i d, ipd (App.params t) = JS.Fin i /\
                        targetDistance (App.params t) = JS.Fin d /\ 0 < d).
  { intros t Ht.
    destruct (reachable_inRange parseFloat t Ht)
      as ((Hi1 & Hi2) & _ & Hd1 & Hd2).
    destruct (le_le_fin _ _ _ Hi1 Hi2) as (i & Hi & _).
    destruct (le_le_fin _ _ _ Hd1 Hd2) as (d & Hd & Hdr).
    exists i, d. repeat split; try assumption. lra. }
  assert (Hset : forall t, App.reachable parseFloat t ->
            App.effectPending t = false ->
            exists i d, ipd (App.params t) = JS.Fin i /\
                        targetDistance (App.params t) = JS.Fin d /\ 0 < d /\
                        vergenceAngle (App.params t) = JS.Fin (Spec.vergence i d)).
  { intros t Ht Hp. destruct (Hfin t Ht) as (i & d & Hi & Hd & Hpos).
    exists i, d. repeat split; try assumption.
    rewrite (reachable_settled parseFloat t Ht Hp).
    rewrite (angleDeg_fin _ i d Hi Hd) by lra.
    cbn [JS.mul]. unfold Spec.vergence. f_equal. ring. }
  split; [now apply Hset |].
  split.
  { destruct (Hset (App.flushEffect s)
                (reachable_flushEffect parseFloat s Hreach)
                (flushEffect_settles s)) as (i & d & Hi & Hd & _ & Hv).
    exists i, d.
    assert (Hsame : App.deps (App.params (App.flushEffect s))
                    = App.deps (App.params s)).
    { unfold App.flushEffect. destruct (App.effectPending s); reflexivity. }
    injection Hsame as Hi' Hd'. rewrite <- Hi', <- Hd'.
    repeat split; assumption. }
  split; [apply flushEffect_settles |].
  split; [intros Hp s'; now apply pending_step_is_effect |].
  split; [intros e; apply change_makes_pending |].
  intros e. apply vergenceAngle_handle.
Qed.

Lemma vergence_after_effect_witness :
  exists i d,
    ipd (App.params (App.flushEffect App.initial)) = JS.Fin i /\
    targetDistance (App.params (App.flushEffect App.initial)) = JS.Fin d /\
    0 < d /\
    vergenceAngle (App.params (App.flushEffect App.initial))
    = JS.Fin (Spec.vergence i d).
Proof.
  apply (vergence_after_effect (fun _ => JS.NaN) (App.flushEffect App.initial)).
  - apply reachable_flushEffect. apply App.reach_initial.
  - apply flushEffect_settles.
Defined.

(** The initial state is reachable and holds [vergenceAngle = 0] for
    [ipd = 64] and [targetDistance = 2.5], while twice the half angle of
    these is positive: not every reachable parameter state has the angle
    of its [ipd] and [targetDistance]. *)
Lemma initial_vergence_stale :
  vergenceAngle (App.params App.initial) = JS.Fin 0 /\
  ipd (App.params App.initial) = JS.Fin 64 /\
  targetDistance (App.params App.initial) = JS.Fin 2.5 /\
  0 < Spec.vergence 64 2.5 /\
  ~ (forall (parseFloat : string -> JS.num) (s : App.State),
       App.reachable parseFloat s ->
       forall i d,
         ipd (App.params s) = JS.Fin i ->
         targetDistance (App.params s) = JS.Fin d ->
         vergenceAngle (App.params s) = JS.Fin (Spec.vergence i d)).
Proof.
  do 3 (split; [reflexivity |]).
  split; [apply vergence_default_pos |].
  intros Hclaim.
  specialize (Hclaim (fun _ => JS.NaN) App.initial
                (App.reach_initial _) 64 2.5 eq_refl eq_refl).
  cbn in Hclaim. injection Hclaim as H.
  pose proof vergence_default_pos. lra.
Qed.

End Vergence.

(** ** Bounds of the optical parameters *)

Section Bounds.

Variable parseFloat : string -> JS.num.

(** C5: a value typed into the number box of a slider is stored clamped
    into the slider's range, no handler signals an error, and in every
    reachable state the target distance lies within
    [[MIN_DISTANCE, MAX_DISTANCE]] = [[0.5, 10.0]], the interpupillary
    distance within [[MIN_IPD, MAX_IPD]] and the focal length within
    [[15, 200]]: the number box clamps, the range input reports values
    of its range only, and the end of a drag stores the distance it
    found. *)
Theorem parameters_within_bounds (s : App.State) :
  App.reachable parseFloat s ->
  (JS.le MIN_DISTANCE (targetDistance (App.params s)) /\
   JS.le (targetDistance (App.params s)) MAX_DISTANCE) /\
  (JS.le MIN_IPD (ipd (App.params s)) /\ JS.le (ipd (App.params s)) MAX_IPD) /\
  (JS.le 15 (focalLength (App.params s)) /\
   JS.le (focalLength (App.params s)) 200) /\
  MIN_DISTANCE = JS.Fin 0.5 /\ MAX_DISTANCE = JS.Fin 10.0 /\
  (forall sl value,
     JS.isNaN (parseFloat value) = false ->
     let stored :=
       Controls.slider_value sl
         (App.params (App.handle parseFloat (App.NumberInput sl value) s)) in
     stored = JS.max (Controls.slider_min sl)
                (JS.min (Controls.slider_max sl) (parseFloat value)) /\
     JS.le (Controls.slider_min sl) stored /\
     JS.le stored (Controls.slider_max sl)) /\
  (forall e, App.effectPending s = false -> App.enabled parseFloat e s ->
     geometryInRange (App.params (App.handle parseFloat e s))).
Proof.
  intros Hr.
  destruct (reachable_inRange parseFloat s Hr) as (Hi & Hf & Hd).
  split; [exact Hd |]. split; [exact Hi |]. split; [exact Hf |].
  split; [reflexivity |]. split; [reflexivity |].
  split.
  - intros sl value Hval stored.
    assert (Hst : stored = JS.max (Controls.slider_min sl)
                    (JS.min (Controls.slider_max sl) (parseFloat value))).
    { unfold stored. rewrite params_handle. cbn [App.paramUpdates].
      unfold Slider.numberInput_onChange. rewrite Hval.
      destruct sl; reflexivity. }
    split; [exact Hst |]. rewrite Hst. now apply clamp_le.
  - intros e Hp Hen. apply (handle_inRange parseFloat); [exact Hen |].
    exact (reachable_inRange parseFloat s Hr).
Qed.

End Bounds.

Lemma parameters_within_bounds_witness :
  JS.le MIN_DISTANCE
    (targetDistance
       (App.params
          (App.handle (fun _ => JS.Fin 25)
             (App.NumberInput Controls.distanceSlider "25"%string)
             (App.flushEffect App.initial)))) /\
  JS.le
    (targetDistance
       (App.params
          (App.handle (fun _ => JS.Fin 25)
             (App.NumberInput Controls.distanceSlider "25"%string)
             (App.flushEffect App.initial))))
    MAX_DISTANCE.
Proof.
  refine (proj1 (parameters_within_bounds (fun _ => JS.Fin 25)
                   (App.handle (fun _ => JS.Fin 25)
                      (App.NumberInput Controls.distanceSlider "25"%string)
                      (App.flushEffect App.initial)) _)).
  apply App.reach_step with (s := App.flushEffect App.initial).
  - apply reachable_flushEffect, App.reach_initial.
  - apply App.step_event; [apply flushEffect_settles | exact I].
Defined.

(** ** The number box of a slider *)

Section NumberBox.

Variable parseFloat : string -> JS.num.

(** C10: when the text typed into the number box of a slider does not parse
    ([parseFloat] gives [NaN]), [onChange] is not called and the state, the
    slider's parameter included, is what it was; when it does parse,
    [onChange] is called once, with the parsed value clamped to the slider's
    range, which becomes the parameter's value. *)
Theorem unparseable_number_ignored
        (sl : Controls.slider) (value : string) (s : App.State) :
  (parseFloat value = JS.NaN ->
   (forall lo hi, Slider.numberInput_onChange parseFloat lo hi value = []) /\
   App.paramUpdates parseFloat (App.NumberInput sl value) s = [] /\
   App.handle parseFloat (App.NumberInput sl value) s = s /\
   Controls.slider_value sl
     (App.params (App.handle parseFloat (App.NumberInput sl value) s))
   = Controls.slider_value sl (App.params s)) /\
  (parseFloat value <> JS.NaN ->
   (forall lo hi,
      Slider.numberInput_onChange parseFloat lo hi value
      = [JS.max lo (JS.min hi (parseFloat value))]) /\
   Controls.slider_value sl
     (App.params (App.handle parseFloat (App.NumberInput sl value) s))
   = JS.max (Controls.slider_min sl)
       (JS.min (Controls.slider_max sl) (parseFloat value))).
Proof.
  split.
  - intros Hnan.
    assert (Hnone : forall lo hi,
               Slider.numberInput_onChange parseFloat lo hi value = []).
    { intros lo hi. unfold Slider.numberInput_onChange. now rewrite Hnan. }
    assert (Hupd : App.paramUpdates parseFloat (App.NumberInput sl value) s = []).
    { cbn [App.paramUpdates]. now rewrite Hnone. }
    assert (Hsame : App.handle parseFloat (App.NumberInput sl value) s = s).
    { unfold App.handle. now rewrite Hupd. }
    split; [exact Hnone |]. split; [exact Hupd |]. split; [exact Hsame |].
    now rewrite Hsame.
  - intros Hnum.
    assert (Hval : JS.isNaN (parseFloat value) = false)
      by (destruct (parseFloat value); try reflexivity; now elim Hnum).
    assert (Hone : forall lo hi,
               Slider.numberInput_onChange parseFloat lo hi value
               = [JS.max lo (JS.min hi (parseFloat value))]).
    { intros lo hi. unfold Slider.numberInput_onChange. now rewrite Hval. }
    split; [exact Hone |].
    rewrite params_handle. cbn [App.paramUpdates]. rewrite Hone.
    destruct sl; reflexivity.
Qed.

End NumberBox.

Lemma unparseable_number_ignored_witness :
  App.handle (fun _ => JS.NaN)
    (App.NumberInput Controls.distanceSlider "abc"%string) App.initial
  = App.initial.
Proof.
  apply (unparseable_number_ignored (fun _ => JS.NaN)
           Controls.distanceSlider "abc"%string App.initial).
  reflexivity.
Defined.

(** ** A failed analysis request *)

Section AnalysisFailure.

Import Promise.

Variable apiKey : string.
Variable generateContent : string -> Thrown + option string.
Variable JSON_parse : string -> Thrown + AIAnalysisResult.
Variable toString : JS.num -> string.

Local Abbreviation analyze :=
  (geminiService.analyzeSimulation apiKey generateContent JSON_parse toString).

Local Abbreviation promptOf := (geminiService.prompt toString).

(** The outcome of [analyzeSimulation] for each answer of the endpoint. *)
Lemma analyzeSimulation_cases (p : SimulationParams) :
  (apiKey = EmptyString /\
   analyze p [] = (inl (Error "缺少 Gemini API 密钥。请检查您的环境配置。"), [])) \/
  (apiKey <> EmptyString /\
   match generateContent (promptOf p) with
   | inl e => analyze p [] = (inl e, [promptOf p])
   | inr None | inr (Some EmptyString) =>
       analyze p [] = (inl (Error "Gemini 没有响应"), [promptOf p])
   | inr (Some text) => analyze p [] = (JSON_parse text, [promptOf p])
   end).
Proof.
  unfold geminiService.analyzeSimulation, geminiService.ai.
  destruct (String.eqb_spec apiKey EmptyString) as [Hk | Hk]; [left | right];
    (split; [exact Hk |]); [reflexivity |].
  unfold try_catch, bind, throw, lift. cbn [app].
  destruct (generateContent (geminiService.prompt toString p))
    as [e | [[| c text] |]]; try reflexivity.
  destruct (JSON_parse (String c text)); reflexivity.
Qed.

(** At most one request is sent, whatever the outcome. *)
Lemma analyzeSimulation_single_request (p : SimulationParams) :
  (length (snd (analyze p [])) <= 1)%nat.
Proof.
  destruct (analyzeSimulation_cases p) as [[_ ->] | [_ H]]; [cbn; lia |].
  destruct (generateContent (promptOf p)) as [e | [[| c text] |]];
    rewrite H; cbn; lia.
Qed.

(** The message shown for a thrown value is never empty. *)
Lemma message_or_nonempty (e : Thrown) (fallback : string) :
  fallback <> EmptyString -> App.message_or e fallback <> EmptyString.
Proof.
  intros Hf. unfold App.message_or.
  destruct (message e) as [[| c m] |]; try exact Hf. discriminate.
Qed.

Lemma rightPanel_error (s : App.State) (m : string) :
  App.error s = Some m -> m <> EmptyString ->
  App.rightPanel s = App.ErrorMessage m.
Proof.
  intros He Hm. unfold App.rightPanel. rewrite He.
  destruct m; [now elim Hm | reflexivity].
Qed.

(** C7: when [analyzeSimulation] throws (no API key, a failing request, an
    empty or unparseable response), [handleAnalyze] leaves the simulation
    parameters and the previous analysis as they were, ends with
    [isAnalyzing = false] (the button is enabled again), stores a non-empty
    error message which the right panel displays, and has sent at most one
    request: nothing is retried.  The parameters are also untouched when
    the failure arrives in any later state. *)
Theorem failed_analysis_keeps_params (s : App.State) :
  (forall e log,
     analyze (App.params s) [] = (inl e, log) ->
     let s' := fst (App.handleAnalyze analyze s) in
     let sent := snd (App.handleAnalyze analyze s) in
     App.params s' = App.params s /\
     App.analysis s' = App.analysis s /\
     App.isAnalyzing s' = false /\
     App.analyzeButton_disabled s' = false /\
     App.error s' = Some (App.message_or e "分析失败") /\
     App.message_or e "分析失败" <> EmptyString /\
     App.rightPanel s' = App.ErrorMessage (App.message_or e "分析失败") /\
     sent = log /\ (length sent <= 1)%nat) /\
  (forall e t,
     App.params (App.handleAnalyze_settle (inl e) t) = App.params t /\
     App.isAnalyzing (App.handleAnalyze_settle (inl e) t) = false) /\
  (apiKey = EmptyString ->
   exists e, analyze (App.params s) [] = (inl e, [])) /\
  (apiKey <> EmptyString ->
   forall e, generateContent (promptOf (App.params s)) = inl e ->
   analyze (App.params s) [] = (inl e, [promptOf (App.params s)])) /\
  (apiKey <> EmptyString ->
   forall c text e,
     generateContent (promptOf (App.params s)) = inr (Some (String c text)) ->
     JSON_parse (String c text) = inl e ->
     analyze (App.params s) [] = (inl e, [promptOf (App.params s)])).
Proof.
  split; [| split; [| split; [| split]]].
  - intros e log Hfail s' sent. subst s' sent.
    assert (Hne : App.message_or e "分析失败" <> EmptyString)
      by (apply message_or_nonempty; discriminate).
    pose proof (analyzeSimulation_single_request (App.params s)) as Hlen.
    unfold App.handleAnalyze. rewrite Hfail in *. cbn [fst snd] in *.
    repeat (split; [reflexivity |]).
    split; [exact Hne |].
    split; [apply rightPanel_error; [reflexivity | exact Hne] |].
    split; [reflexivity | exact Hlen].
  - intros e t. split; reflexivity.
  - intros Hk. destruct (analyzeSimulation_cases (App.params s))
      as [[_ H] | [Hk' _]]; [eauto | contradiction].
  - intros Hk e He. destruct (analyzeSimulation_cases (App.params s))
      as [[Hk' _] | [_ H]]; [contradiction |].
    now rewrite He in H.
  - intros Hk c text e He Hp. destruct (analyzeSimulation_cases (App.params s))
      as [[Hk' _] | [_ H]]; [contradiction |].
    rewrite He in H. now rewrite <- Hp.
Qed.

End AnalysisFailure.

Lemma failed_analysis_keeps_params_witness :
  let analyze :=
    geminiService.analyzeSimulation EmptyString (fun _ => inr None)
      (fun _ => inl (Promise.Error EmptyString)) (fun _ => EmptyString) in
  App.params (fst (App.handleAnalyze analyze App.initial)) = DEFAULT_PARAMS /\
  App.isAnalyzing (fst (App.handleAnalyze analyze App.initial)) = false /\
  App.error (fst (App.handleAnalyze analyze App.initial))
  = Some "缺少 Gemini API 密钥。请检查您的环境配置。"%string.
Proof.
  intros analyze.
  destruct (proj1 (failed_analysis_keeps_params EmptyString (fun _ => inr None)
                     (fun _ => inl (Promise.Error EmptyString))
                     (fun _ => EmptyString) App.initial)
              (Promise.Error "缺少 Gemini API 密钥。请检查您的环境配置。"%string)
              [] eq_refl)
    as (Hp & _ & Ha & _ & He & _).
  split; [exact Hp |]. split; [exact Ha | exact He].
Defined.

(** * Further properties of the components *)

(** ** The number box and the toggles *)

Section NumberBoxClamp.

Variable parseFloat : string -> JS.num.

(** X1: between bounds [lo <= hi], the number box hands on a typed number
    within the bounds as it is, replaces a smaller one or [-Infinity] by
    [lo] and a larger one or [Infinity] by [hi]; what it hands on is
    always within the bounds, and typing it again changes nothing. *)
Theorem numberInput_clamps (lo hi : R) (value : string) :
  lo <= hi ->
  (forall v, parseFloat value = JS.Fin v -> lo <= v <= hi ->
     Slider.numberInput_onChange parseFloat lo hi value = [JS.Fin v]) /\
  (forall v, parseFloat value = JS.Fin v -> v < lo ->
     Slider.numberInput_onChange parseFloat lo hi value = [JS.Fin lo]) /\
  (forall v, parseFloat value = JS.Fin v -> hi < v ->
     Slider.numberInput_onChange parseFloat lo hi value = [JS.Fin hi]) /\
  (parseFloat value = JS.NInf ->
     Slider.numberInput_onChange parseFloat lo hi value = [JS.Fin lo]) /\
  (parseFloat value = JS.PInf ->
     Slider.numberInput_onChange parseFloat lo hi value = [JS.Fin hi]) /\
  (forall c, In c (Slider.numberInput_onChange parseFloat lo hi value) ->
     JS.le lo c /\ JS.le c hi /\ JS.max lo (JS.min hi c) = c).
Proof.
  intros Hle. unfold Slider.numberInput_onChange.
  split; [| split; [| split; [| split; [| split]]]].
  - intros v -> Hv. cbn. do 2 f_equal. unfold Rmax, Rmin.
    destruct (Rle_dec hi v); destruct (Rle_dec lo _); lra.
  - intros v -> Hv. cbn. do 2 f_equal. unfold Rmax, Rmin.
    destruct (Rle_dec hi v); destruct (Rle_dec lo _); lra.
  - intros v -> Hv. cbn. do 2 f_equal. unfold Rmax, Rmin.
    destruct (Rle_dec hi v); destruct (Rle_dec lo _); lra.
  - intros ->. reflexivity.
  - intros ->. cbn. do 2 f_equal. unfold Rmax.
    destruct (Rle_dec lo hi); lra.
  - intros c Hc.
    destruct (JS.isNaN (parseFloat value)) eqn:Hnan; cbn [negb In] in Hc;
      [contradiction |].
    destruct Hc as [<- | []].
    destruct (clamp_in_range lo hi _ Hle Hnan) as (r & -> & Hr).
    cbn. repeat split; try lra. f_equal. unfold Rmax, Rmin.
    destruct (Rle_dec hi r); destruct (Rle_dec lo _); lra.
Qed.

End NumberBoxClamp.

Lemma numberInput_clamps_witness :
  Slider.numberInput_onChange (fun _ => JS.Fin 25) 0.5 10 "25"%string
  = [JS.Fin 10].
Proof.
  destruct (numberInput_clamps (fun _ => JS.Fin 25) 0.5 10 "25"%string)
    as (_ & _ & H & _); [lra |].
  apply (H 25); [reflexivity | lra].
Defined.

Section Toggles.

Variable parseFloat : string -> JS.num.

(** X2: clicking a toggle button, or the view-lock button, twice gives back the
    state before the first click.  The two differ within one render: the
    panel's toggles write the negation of the rendered flag, so two clicks
    handled from the same render flip the flag once, whereas the view lock
    negates the flag of the latest state and flips it twice. *)
Theorem toggle_twice (t : Controls.toggle) (s : App.State) :
  App.handle parseFloat (App.ToggleClick t)
    (App.handle parseFloat (App.ToggleClick t) s) = s /\
  App.handle parseFloat App.ViewLockClick
    (App.handle parseFloat App.ViewLockClick s) = s /\
  (forall p q : SimulationParams,
     Controls.toggle_onClick t p (Controls.toggle_onClick t p q)
     = Controls.toggle_onClick t p q) /\
  (forall q : SimulationParams,
     SimulationCanvas.toggleViewLock (SimulationCanvas.toggleViewLock q) = q).
Proof.
  destruct s as [p vm an ia er ed].
  destruct p as [a1 a2 a3 a4 a5 a6 a7 a8 a9 a10 a11 a12 a13 a14 a15].
  split; [| split; [| split]].
  - destruct t; cbn; unfold App.setParams, Controls.updateParam; cbn;
      now rewrite negb_involutive.
  - cbn. unfold App.setParams, SimulationCanvas.toggleViewLock. cbn.
    now rewrite negb_involutive.
  - intros p q. destruct t; reflexivity.
  - intros q. destruct q. unfold SimulationCanvas.toggleViewLock. cbn.
    now rewrite negb_involutive.
Qed.

End Toggles.

(** ** What the handlers leave alone *)

Section Untouched.

Variable parseFloat : string -> JS.num.

(** X3: only the number box and the range input of the [ipd] and distance
    sliders and the drag of the object can change [ipd] or
    [targetDistance]: the handler of any other event leaves both as they
    are, so the vergence effect is due after it exactly if it was before. *)
Theorem other_events_keep_vergence_inputs (e : App.event) (s : App.State) :
  changesVergenceInputs e = false ->
  ipd (App.params (App.handle parseFloat e s)) = ipd (App.params s) /\
  targetDistance (App.params (App.handle parseFloat e s))
  = targetDistance (App.params s) /\
  App.effectPending (App.handle parseFloat e s) = App.effectPending s.
Proof.
  intros He.
  assert (H : ipd (App.params (App.handle parseFloat e s)) = ipd (App.params s)
              /\ targetDistance (App.params (App.handle parseFloat e s))
                 = targetDistance (App.params s)).
  { rewrite params_handle.
    destruct e as [sl v | sl v | b | [url |] | t | m | | z | | r |];
      cbn [App.paramUpdates]; try (split; reflexivity);
      try discriminate He.
    - destruct (numberInput_cases parseFloat (Controls.slider_min sl)
                  (Controls.slider_max sl) v) as [[_ ->] | [_ ->]];
        [split; reflexivity |].
      destruct sl; try discriminate He; split; reflexivity.
    - destruct sl; try discriminate He; split; reflexivity.
    - destruct t; split; reflexivity. }
  destruct H as [Hi Hd]. split; [exact Hi |]. split; [exact Hd |].
  unfold App.effectPending. rewrite effectDeps_handle.
  unfold App.deps. now rewrite Hi, Hd.
Qed.


(** Whatever the parameters, exactly one of the object conditions holds. *)
Lemma objectContent_single (p : SimulationParams) :
  length (SceneObject.objectContent p) = 1%nat.
Proof.
  unfold SceneObject.objectContent.
  destruct (objectType p); try reflexivity.
  destruct (SceneObject.truthy (customModelUrl p)); reflexivity.
Qed.

(** X4: in every reachable state with the object type [custom] a model URL is
    stored: the type becomes [custom] only through an upload, which stores
    the URL of the chosen file first, and nothing clears the URL.  An
    upload dialog closed without a file changes nothing, and the object
    group always mounts exactly one object: a torus knot, a box, a sphere,
    the DNA helix, the custom model or the upload prompt. *)
Theorem custom_object_has_url (s : App.State) :
  App.reachable parseFloat s ->
  (objectType (App.params s) = custom -> customModelUrl (App.params s) <> None)
  /\ App.handle parseFloat (App.FileUpload None) s = s
  /\ length (SceneObject.objectContent (App.params s)) = 1%nat.
Proof.
  intros Hr. split; [| split; [reflexivity | apply objectContent_single]].
  induction Hr as [| s s' Hreach IH Hstep]; [discriminate |].
  destruct Hstep as [s Hp | e s Hp Hen].
  - rewrite (params_flushEffect_pending s Hp). exact IH.
  - rewrite params_handle.
    destruct e as [sl v | sl v | b | [url |] | t | m | | z | | r |];
      cbn [App.paramUpdates fold_left map]; try exact IH.
    + destruct (numberInput_cases parseFloat (Controls.slider_min sl)
                  (Controls.slider_max sl) v) as [[_ ->] | [_ ->]];
        [exact IH | destruct sl; exact IH].
    + destruct sl; exact IH.
    + destruct b; discriminate.
    + intros _. discriminate.
    + destruct t; exact IH.
Qed.

End Untouched.

Lemma other_events_keep_vergence_inputs_witness :
  App.effectPending
    (App.handle (fun _ => JS.Fin 100)
       (App.NumberInput Controls.focalSlider "100"%string)
       (App.flushEffect App.initial))
  = App.effectPending (App.flushEffect App.initial).
Proof.
  apply (other_events_keep_vergence_inputs (fun _ => JS.Fin 100)
           (App.NumberInput Controls.focalSlider "100"%string)).
  reflexivity.
Defined.

Lemma custom_object_has_url_witness :
  customModelUrl
    (App.params
       (App.handle (fun _ => JS.NaN) (App.FileUpload (Some "blob:a"%string))
          (App.flushEffect App.initial)))
  <> None.
Proof.
  apply (custom_object_has_url (fun _ => JS.NaN)); [| reflexivity].
  apply App.reach_step with (s := App.flushEffect App.initial).
  - apply reachable_flushEffect, App.reach_initial.
  - apply App.step_event; [apply flushEffect_settles | exact I].
Defined.

(** ** Dragging the object *)

Section Drag.

Lemma applyMeshOp_on_axis (op : SceneObject.meshOp) (mesh : Placement) :
  xOf (position mesh) = JS.Fin 0 -> zOf (position mesh) = JS.Fin 0 ->
  exists mesh',
    SceneObject.applyMeshOp (Some mesh) op = Some mesh' /\
    xOf (position mesh') = JS.Fin 0 /\ zOf (position mesh') = JS.Fin 0.
Proof.
  intros Hx Hz. destruct mesh as [[[px py] pz] [[rx ry] rz]].
  cbn in Hx, Hz. subst px pz.
  destruct op as [params delta | params]; cbn.
  - destruct (negb (isPaused params) && negb (isViewLocked params));
      eexists; (split; [reflexivity |]); split; reflexivity.
  - eexists; (split; [reflexivity |]); split; reflexivity.
Qed.

(** Through any frames and ends of drags, a mesh that is mounted at the
    origin keeps [x = 0] and [z = 0]. *)
Lemma mesh_stays_on_axis (ops : list SceneObject.meshOp) (mesh : Placement) :
  xOf (position mesh) = JS.Fin 0 -> zOf (position mesh) = JS.Fin 0 ->
  exists mesh',
    fold_left SceneObject.applyMeshOp ops (Some mesh) = Some mesh' /\
    xOf (position mesh') = JS.Fin 0 /\ zOf (position mesh') = JS.Fin 0.
Proof.
  revert mesh. induction ops as [| op ops IH]; intros mesh Hx Hz.
  - exists mesh. repeat split; assumption.
  - destruct (applyMeshOp_on_axis op mesh Hx Hz) as (m1 & H1 & Hx1 & Hz1).
    cbn [fold_left]. rewrite H1. now apply IH.
Qed.

End Drag.

Section DragEnd.

Variable parseFloat : string -> JS.num.

(** X5: the source never moves the mesh behind [meshRef] in depth: frames
    write its height only and the end of a drag puts it back at the origin,
    so after any frames and drags [handleDragEnd] reads the offset 0 and
    reports the update computed from it.  In every reachable state that
    update stores [max(0.5, targetDistance - 0)], which is the target
    distance already stored: the end of a drag leaves all simulation
    parameters as they are and does not make the vergence effect due. *)
Theorem drag_end_keeps_parameters (s : App.State) (zOffset : JS.num) :
  App.reachable parseFloat s ->
  App.enabled parseFloat (App.DragEnd zOffset) s ->
  App.params (App.handle parseFloat (App.DragEnd zOffset) s) = App.params s /\
  App.effectPending (App.handle parseFloat (App.DragEnd zOffset) s)
  = App.effectPending s /\
  (forall ops, exists mesh',
     fold_left SceneObject.applyMeshOp ops (Some SceneObject.mounted)
     = Some mesh' /\
     zOf (position mesh') = JS.Fin 0 /\
     snd (SceneObject.handleDragEnd_ref (App.params s) true (Some mesh'))
     = [SceneContent.handleDragEnd (App.params s) zOffset]).
Proof.
  intros Hr [_ ->].
  destruct (reachable_inRange parseFloat s Hr) as (_ & _ & Hd1 & Hd2).
  destruct (le_le_fin _ _ _ Hd1 Hd2) as (d & Hd & Hdr).
  assert (Hp : App.params (App.handle parseFloat (App.DragEnd (JS.Fin 0)) s)
               = App.params s).
  { rewrite params_handle. cbn [App.paramUpdates fold_left].
    unfold SimulationCanvas.onParamChange, SceneContent.handleDragEnd.
    cbn [spread fold_left]. rewrite Hd. cbn [JS.sub JS.neg JS.add JS.max].
    replace (Rmax 0.5 (d + - 0)) with d
      by (unfold Rmax; destruct (Rle_dec _ _); lra).
    destruct (App.params s). cbn in Hd. subst. reflexivity. }
  split; [exact Hp |].
  split.
  - unfold App.effectPending. now rewrite effectDeps_handle, Hp.
  - intros ops.
    destruct (mesh_stays_on_axis ops SceneObject.mounted eq_refl eq_refl)
      as (mesh' & Hm & _ & Hz).
    exists mesh'. split; [exact Hm |]. split; [exact Hz |].
    cbn. now rewrite Hz.
Qed.

End DragEnd.

Lemma drag_end_keeps_parameters_witness :
  App.params
    (App.handle (fun _ => JS.NaN) (App.DragEnd (JS.Fin 0))
       (App.handle (fun _ => JS.NaN) App.ViewLockClick
          (App.flushEffect App.initial)))
  = App.params
      (App.handle (fun _ => JS.NaN) App.ViewLockClick
         (App.flushEffect App.initial)).
Proof.
  refine (proj1 (drag_end_keeps_parameters (fun _ => JS.NaN)
                   (App.handle (fun _ => JS.NaN) App.ViewLockClick
                      (App.flushEffect App.initial))
                   (JS.Fin 0) _ (conj eq_refl eq_refl))).
  apply App.reach_step with (s := App.flushEffect App.initial).
  - apply reachable_flushEffect, App.reach_initial.
  - apply App.step_event; [apply flushEffect_settles | exact I].
Defined.

(** ** The animation of the object *)

Section Animation.

Lemma useFrame_running (p : SimulationParams) (dt rx ry rz : R)
      (px py pz : JS.num) :
  isPaused p = false -> isViewLocked p = false ->
  SceneObject.useFrame p (JS.Fin dt)
    (Some {| position := (px, py, pz);
             rotation := (JS.Fin rx, JS.Fin ry, JS.Fin rz) |})
  = Some {| position :=
              (px, JS.Fin (Rtrigo_def.sin ((ry + dt * 0.2) * 4) * 0.1), pz);
            rotation :=
              (JS.Fin (rx + dt * 0.1), JS.Fin (ry + dt * 0.2),
               JS.Fin (Rtrigo_def.sin ((ry + dt * 0.2) * 3) * 0.05)) |}.
Proof.
  intros Hp Hl. unfold SceneObject.useFrame. now rewrite Hp, Hl.
Qed.

Lemma sin_scaled_bound (x k : R) :
  0 <= k -> - k <= Rtrigo_def.sin x * k <= k.
Proof.
  intros Hk. pose proof (SIN_bound x) as [H1 H2]. split; nra.
Qed.

Lemma runFrames_running (p : SimulationParams) (dts : list R) :
  isPaused p = false -> isViewLocked p = false ->
  forall rx ry rz y px pz,
    y = Rtrigo_def.sin (ry * 4) * 0.1 -> rz = Rtrigo_def.sin (ry * 3) * 0.05 ->
    exists rx' ry',
      SceneObject.runFrames p (map JS.Fin dts)
        (Some {| position := (px, JS.Fin y, pz);
                 rotation := (JS.Fin rx, JS.Fin ry, JS.Fin rz) |})
      = Some {| position :=
                  (px, JS.Fin (Rtrigo_def.sin (ry' * 4) * 0.1), pz);
                rotation :=
                  (JS.Fin rx', JS.Fin ry',
                   JS.Fin (Rtrigo_def.sin (ry' * 3) * 0.05)) |}
      /\ (Forall (fun dt => 0 <= dt) dts -> rx <= rx' /\ ry <= ry').
Proof.
  intros Hp Hl. unfold SceneObject.runFrames.
  induction dts as [| dt dts IH]; intros rx ry rz y px pz Hy Hrz.
  - exists rx, ry. subst y rz. cbn. split; [reflexivity | intros _; lra].
  - cbn [map fold_left].
    rewrite (useFrame_running p dt rx ry rz px (JS.Fin y) pz Hp Hl).
    destruct (IH (rx + dt * 0.1) (ry + dt * 0.2)
                 (Rtrigo_def.sin ((ry + dt * 0.2) * 3) * 0.05)
                 (Rtrigo_def.sin ((ry + dt * 0.2) * 4) * 0.1) px pz
                 eq_refl eq_refl)
      as (rx' & ry' & Heq & Hmono).
    exists rx', ry'. split; [exact Heq |].
    intros Hall. inversion Hall as [| ? ? Hdt Hrest]; subst.
    destruct (Hmono Hrest) as [H1 H2]. lra.
Qed.

(** X6: while the animation is paused or the view is locked, frames leave
    the mesh as it is.  While it runs, after one or more frames of finite
    duration on a mesh of finite rotation the height of the mesh is
    [0.1 * sin(4 * yaw)] and its roll [0.05 * sin(3 * yaw)] for the yaw it
    then has, so the height stays within 0.1 and the roll within 0.05
    radians; the x and z position are never written; and with durations
    that are not negative the rotation about x and y never turns back. *)
Theorem animation_frames (p : SimulationParams) :
  (isPaused p = true \/ isViewLocked p = true ->
   forall deltas meshRef, SceneObject.runFrames p deltas meshRef = meshRef) /\
  (isPaused p = false -> isViewLocked p = false ->
   forall dt dts rx ry rz px py pz,
   exists rx' ry' y' rz',
     SceneObject.runFrames p (map JS.Fin (dt :: dts))
       (Some {| position := (px, py, pz);
                rotation := (JS.Fin rx, JS.Fin ry, JS.Fin rz) |})
     = Some {| position := (px, JS.Fin y', pz);
               rotation := (JS.Fin rx', JS.Fin ry', JS.Fin rz') |}
     /\ y' = Rtrigo_def.sin (ry' * 4) * 0.1
     /\ rz' = Rtrigo_def.sin (ry' * 3) * 0.05
     /\ - 0.1 <= y' <= 0.1 /\ - 0.05 <= rz' <= 0.05
     /\ (Forall (fun d => 0 <= d) (dt :: dts) -> rx <= rx' /\ ry <= ry')) /\
  (forall deltas, SceneObject.runFrames p deltas None = None).
Proof.
  split; [| split].
  - intros Hstop deltas. unfold SceneObject.runFrames.
    induction deltas as [| dt deltas IH]; intros meshRef; [reflexivity |].
    cbn [fold_left]. rewrite IH. unfold SceneObject.useFrame.
    destruct meshRef as [mesh |]; [| reflexivity].
    destruct Hstop as [-> | ->]; [reflexivity |].
    now rewrite andb_false_r.
  - intros Hp Hl dt dts rx ry rz px py pz.
    unfold SceneObject.runFrames. cbn [map fold_left].
    rewrite (useFrame_running p dt rx ry rz px py pz Hp Hl).
    destruct (runFrames_running p dts Hp Hl (rx + dt * 0.1) (ry + dt * 0.2)
                (Rtrigo_def.sin ((ry + dt * 0.2) * 3) * 0.05)
                (Rtrigo_def.sin ((ry + dt * 0.2) * 4) * 0.1) px pz
                eq_refl eq_refl)
      as (rx' & ry' & Heq & Hmono).
    exists rx', ry', (Rtrigo_def.sin (ry' * 4) * 0.1),
      (Rtrigo_def.sin (ry' * 3) * 0.05).
    unfold SceneObject.runFrames in Heq.
    split; [exact Heq |]. split; [reflexivity |]. split; [reflexivity |].
    split; [pose proof (sin_scaled_bound (ry' * 4) 0.1); lra |].
    split; [pose proof (sin_scaled_bound (ry' * 3) 0.05); lra |].
    intros Hall. inversion Hall as [| ? ? Hdt Hrest]; subst.
    destruct (Hmono Hrest) as [H1 H2]. lra.
  - intros deltas. unfold SceneObject.runFrames.
    induction deltas as [| dt deltas IH]; [reflexivity | exact IH].
Qed.

Lemma animation_frames_witness :
  (exists rx' ry' y' rz',
     SceneObject.runFrames DEFAULT_PARAMS (map JS.Fin [0.016; 0.017])
       (Some {| position := (JS.Fin 0, JS.Fin 0, JS.Fin 0);
                rotation := (JS.Fin 0, JS.Fin 0, JS.Fin 0) |})
     = Some {| position := (JS.Fin 0, JS.Fin y', JS.Fin 0);
               rotation := (JS.Fin rx', JS.Fin ry', JS.Fin rz') |}
     /\ y' = Rtrigo_def.sin (ry' * 4) * 0.1
     /\ rz' = Rtrigo_def.sin (ry' * 3) * 0.05
     /\ - 0.1 <= y' <= 0.1 /\ - 0.05 <= rz' <= 0.05
     /\ (Forall (fun d => 0 <= d) [0.016; 0.017] -> 0 <= rx' /\ 0 <= ry')) /\
  SceneObject.runFrames (assign (K_isViewLocked true) DEFAULT_PARAMS)
    [JS.Fin 0.016; JS.Fin 0.017]
    (Some {| position := (JS.Fin 0, JS.Fin 0, JS.Fin 0);
             rotation := (JS.Fin 0, JS.Fin 0, JS.Fin 0) |})
  = Some {| position := (JS.Fin 0, JS.Fin 0, JS.Fin 0);
            rotation := (JS.Fin 0, JS.Fin 0, JS.Fin 0) |}.
Proof.
  split.
  - exact (proj1 (proj2 (animation_frames DEFAULT_PARAMS)) eq_refl eq_refl
             0.016 [0.017] 0 0 0 (JS.Fin 0) (JS.Fin 0) (JS.Fin 0)).
  - apply (animation_frames (assign (K_isViewLocked true) DEFAULT_PARAMS)).
    right. reflexivity.
Defined.

End Animation.

(** ** Where the cameras look *)

Section Aim.

Lemma convergenceAngle_fin (p : SimulationParams) (i d : R) :
  ipd p = JS.Fin i -> targetDistance p = JS.Fin d -> d <> 0 ->
  SimulationCanvas.convergenceAngle p
  = JS.Fin (Ratan.atan ((i / 1000 / 2) / d)).
Proof.
  intros Hi Hd Hnz.
  unfold SimulationCanvas.convergenceAngle, SimulationCanvas.halfBaseLine.
  rewrite halfBaseLine_eq, Hi, Hd, !div_fin by lra. reflexivity.
Qed.

(** X7: for a finite [ipd] and a positive finite target distance, the two eye
    cameras are yawed by the same angle in opposite directions, and the
    viewing direction of each, followed from the camera's position, passes
    through the origin, where the target object is: both eyes fixate the
    target. *)
Theorem cameras_fixate_target (p : SimulationParams) (i d : R) :
  ipd p = JS.Fin i -> targetDistance p = JS.Fin d -> 0 < d ->
  exists a h t,
    - (Rtrigo1.PI / 2) < a < Rtrigo1.PI / 2 /\ 0 < t /\
    h = i / 1000 / 2 /\
    SimulationCanvas.leftCamera p
    = {| position := (JS.Fin (- h), JS.Fin 0, JS.Fin d);
         rotation := (JS.Fin 0, JS.Fin (- a), JS.Fin 0) |} /\
    SimulationCanvas.rightCamera p
    = {| position := (JS.Fin h, JS.Fin 0, JS.Fin d);
         rotation := (JS.Fin 0, JS.Fin a, JS.Fin 0) |} /\
    (let '(fx, fy, fz) := yawForward (- a) in
     (- h + t * fx, 0 + t * fy, d + t * fz) = (0, 0, 0)) /\
    (let '(fx, fy, fz) := yawForward a in
     (h + t * fx, 0 + t * fy, d + t * fz) = (0, 0, 0)).
Proof.
  intros Hi Hd Hpos.
  set (h := i / 1000 / 2).
  set (a := Ratan.atan (h / d)).
  assert (Ha : - (Rtrigo1.PI / 2) < a < Rtrigo1.PI / 2).
  { pose proof (atan_bound (h / d)) as [H1 H2]. unfold a. split; lra. }
  assert (Hcos : 0 < Rtrigo_def.cos a) by (apply cos_gt_0; lra).
  assert (Htan : Rtrigo_def.sin a = h / d * Rtrigo_def.cos a).
  { pose proof (tan_atan (h / d)) as Ht. fold a in Ht.
    unfold Rtrigo1.tan in Ht. rewrite <- Ht. field. lra. }
  exists a, h, (d / Rtrigo_def.cos a).
  split; [exact Ha |].
  split; [now apply Rdiv_lt_0_compat |].
  split; [reflexivity |].
  assert (Hc : SimulationCanvas.convergenceAngle p = JS.Fin a)
    by (apply convergenceAngle_fin; [assumption | assumption | lra]).
  assert (Hh : SimulationCanvas.halfBaseLine p = JS.Fin h).
  { unfold SimulationCanvas.halfBaseLine.
    rewrite halfBaseLine_eq, Hi, !div_fin by lra. reflexivity. }
  split.
  { unfold SimulationCanvas.leftCamera, SimulationCanvas.camZ.
    now rewrite Hc, Hh, Hd. }
  split.
  { unfold SimulationCanvas.rightCamera, SimulationCanvas.camZ.
    now rewrite Hc, Hh, Hd. }
  unfold yawForward. rewrite sin_neg, cos_neg, Htan.
  split; f_equal; try f_equal; field; lra.
Qed.

Lemma cameras_fixate_target_witness :
  exists a h t,
    - (Rtrigo1.PI / 2) < a < Rtrigo1.PI / 2 /\ 0 < t /\
    h = 64 / 1000 / 2 /\
    SimulationCanvas.leftCamera DEFAULT_PARAMS
    = {| position := (JS.Fin (- h), JS.Fin 0, JS.Fin 2.5);
         rotation := (JS.Fin 0, JS.Fin (- a), JS.Fin 0) |} /\
    SimulationCanvas.rightCamera DEFAULT_PARAMS
    = {| position := (JS.Fin h, JS.Fin 0, JS.Fin 2.5);
         rotation := (JS.Fin 0, JS.Fin a, JS.Fin 0) |} /\
    (let '(fx, fy, fz) := yawForward (- a) in
     (- h + t * fx, 0 + t * fy, 2.5 + t * fz) = (0, 0, 0)) /\
    (let '(fx, fy, fz) := yawForward a in
     (h + t * fx, 0 + t * fy, 2.5 + t * fz) = (0, 0, 0)).
Proof.
  apply (cameras_fixate_target DEFAULT_PARAMS 64 2.5);
    [reflexivity | reflexivity | lra].
Defined.

End Aim.

(** ** The stored angle and the cameras *)

Section StoredAngle.

Variable parseFloat : string -> JS.num.

Lemma reachable_finite_geometry (s : App.State) :
  App.reachable parseFloat s ->
  exists i d f,
    ipd (App.params s) = JS.Fin i /\ targetDistance (App.params s) = JS.Fin d /\
    focalLength (App.params s) = JS.Fin f /\
    0 <= i <= 20000 /\ 0.5 <= d /\ 15 <= f <= 200.
Proof.
  intros Hr.
  destruct (reachable_inRange parseFloat s Hr)
    as ((Hi1 & Hi2) & (Hf1 & Hf2) & Hd1 & Hd2).
  destruct (le_le_fin _ _ _ Hi1 Hi2) as (i & Hi & Hir).
  destruct (le_le_fin _ _ _ Hf1 Hf2) as (f & Hf & Hfr).
  destruct (le_le_fin _ _ _ Hd1 Hd2) as (d & Hd & Hdr).
  exists i, d, f. repeat split; try assumption; lra.
Qed.

Lemma half_angle_range (i d : R) :
  0 <= i -> 0 < d -> 0 <= Ratan.atan (i / 1000 / 2 / d) < Rtrigo1.PI / 2.
Proof.
  intros Hi Hd. split.
  - rewrite <- atan_0. apply atan_monotone.
    apply Rmult_le_pos; [lra | left; now apply Rinv_0_lt_compat].
  - apply atan_bound.
Qed.

(** X8: in every reachable state where the vergence effect is not due, the
    stored [vergenceAngle] is, in degrees, the angle between the viewing
    directions of the two eye cameras: the yaw of the right camera minus
    that of the left. *)
Theorem vergence_is_angle_between_cameras (s : App.State) :
  App.reachable parseFloat s -> App.effectPending s = false ->
  exists yawL yawR,
    rotation (SimulationCanvas.leftCamera (App.params s))
    = (JS.Fin 0, JS.Fin yawL, JS.Fin 0) /\
    rotation (SimulationCanvas.rightCamera (App.params s))
    = (JS.Fin 0, JS.Fin yawR, JS.Fin 0) /\
    vergenceAngle (App.params s) = JS.Fin (Spec.degrees (yawR - yawL)).
Proof.
  intros Hr Hp.
  destruct (reachable_finite_geometry s Hr)
    as (i & d & f & Hi & Hd & _ & _ & Hdr & _).
  exists (- Ratan.atan (i / 1000 / 2 / d)), (Ratan.atan (i / 1000 / 2 / d)).
  assert (Hc := convergenceAngle_fin (App.params s) i d Hi Hd).
  unfold SimulationCanvas.leftCamera, SimulationCanvas.rightCamera.
  cbn [rotation]. rewrite Hc by lra.
  split; [reflexivity |]. split; [reflexivity |].
  rewrite (reachable_settled parseFloat s Hr Hp).
  rewrite (angleDeg_fin _ i d Hi Hd) by lra. cbn [JS.mul]. f_equal.
  unfold Spec.convergenceHalfAngle, Spec.degrees. ring.
Qed.

(** X9: in every reachable state, whether or not the effect has run, the stored
    [vergenceAngle] is a finite angle of at least 0 and less than 180
    degrees. *)
Theorem vergence_always_in_range (s : App.State) :
  App.reachable parseFloat s ->
  exists v, vergenceAngle (App.params s) = JS.Fin v /\ 0 <= v < 180.
Proof.
  induction 1 as [| s s' Hreach IH Hstep].
  - exists 0. split; [reflexivity | lra].
  - destruct Hstep as [s Hp | e s Hp Hen].
    + destruct (reachable_finite_geometry s Hreach)
        as (i & d & f & Hi & Hd & _ & Hir & Hdr & _).
      rewrite (params_flushEffect_pending s Hp).
      rewrite (computed_vergence_fin _ _ i d Hi Hd) by lra.
      eexists. split; [reflexivity |].
      unfold Spec.vergence, Spec.convergenceHalfAngle, Spec.degrees.
      pose proof (half_angle_range i d) as [Ha1 Ha2]; [lra | lra |].
      pose proof (degrees_atan_range (i / 1000 / 2 / d)) as [_ Hhi].
      pose proof rad_to_deg_pos as Hk.
      assert (0 <= Ratan.atan (i / 1000 / 2 / d) * (180 / Rtrigo1.PI))
        by (apply Rmult_le_pos; lra).
      lra.
    + rewrite vergenceAngle_handle. exact IH.
Qed.

End StoredAngle.

Lemma vergence_is_angle_between_cameras_witness :
  exists yawL yawR,
    rotation (SimulationCanvas.leftCamera
                (App.params (App.flushEffect App.initial)))
    = (JS.Fin 0, JS.Fin yawL, JS.Fin 0) /\
    rotation (SimulationCanvas.rightCamera
                (App.params (App.flushEffect App.initial)))
    = (JS.Fin 0, JS.Fin yawR, JS.Fin 0) /\
    vergenceAngle (App.params (App.flushEffect App.initial))
    = JS.Fin (Spec.degrees (yawR - yawL)).
Proof.
  apply (vergence_is_angle_between_cameras (fun _ => JS.NaN)).
  - apply reachable_flushEffect, App.reach_initial.
  - apply flushEffect_settles.
Defined.

Lemma vergence_always_in_range_witness :
  exists v,
    vergenceAngle
      (App.params
         (App.flushEffect
            (App.handle (fun _ => JS.Fin 0.5)
               (App.NumberInput Controls.distanceSlider "0.5"%string)
               (App.flushEffect App.initial))))
    = JS.Fin v /\ 0 <= v < 180.
Proof.
  apply (vergence_always_in_range (fun _ => JS.Fin 0.5)).
  apply reachable_flushEffect.
  apply App.reach_step with (s := App.flushEffect App.initial).
  - apply reachable_flushEffect, App.reach_initial.
  - apply App.step_event; [apply flushEffect_settles | exact I].
Defined.

(** ** Focal length, field of view and the frustum *)

Section FieldOfView.

Lemma fieldOfView_decreasing (f1 f2 : R) :
  0 < f1 -> f1 < f2 -> Spec.fieldOfView f2 < Spec.fieldOfView f1.
Proof.
  intros H1 H12. unfold Spec.fieldOfView. apply degrees_lt.
  apply Rmult_lt_compat_l; [lra |]. apply atan_increasing.
  unfold Rdiv. apply Rmult_lt_compat_l; [lra |].
  apply Rinv_lt_contravar; [| lra].
  apply Rmult_lt_0_compat; lra.
Qed.

Lemma fieldOfView_range (f : R) : 15 <= f -> 0 < Spec.fieldOfView f < 90.
Proof.
  intros Hf. unfold Spec.fieldOfView, Spec.degrees.
  assert (Hx : 0 < 24 / (2 * f) < 1).
  { split.
    - apply Rdiv_lt_0_compat; lra.
    - apply quotient_lt; lra. }
  assert (Ha : 0 < Ratan.atan (24 / (2 * f)) < Rtrigo1.PI / 4).
  { split; [apply atan_pos; lra |].
    rewrite <- atan_1. apply atan_increasing. lra. }
  pose proof PI_RGT_0 as Hpi.
  replace (2 * Ratan.atan (24 / (2 * f)) * (180 / Rtrigo1.PI))
    with (360 * Ratan.atan (24 / (2 * f)) / Rtrigo1.PI) by (field; lra).
  split.
  - apply Rdiv_lt_0_compat; lra.
  - apply quotient_lt; lra.
Qed.

(** X10: a longer focal length gives a strictly narrower field of view; over
    the focal lengths of the slider, from 15 mm on, the field of view is
    more than 0 and less than 90 degrees, so in every reachable state the
    cameras get a finite field of view in that range. *)
Theorem fov_narrows_with_focal_length (p : SimulationParams) :
  (forall f1 f2, 0 < f1 -> f1 < f2 ->
     JS.lt (SimulationCanvas.fov (assign (K_focalLength f2) p))
           (SimulationCanvas.fov (assign (K_focalLength f1) p))) /\
  (forall f, focalLength p = JS.Fin f -> 15 <= f ->
     exists r, SimulationCanvas.fov p = JS.Fin r /\ 0 < r < 90) /\
  (forall parseFloat s, App.reachable parseFloat s ->
     exists r, SimulationCanvas.fov (App.params s) = JS.Fin r /\ 0 < r < 90).
Proof.
  split; [| split].
  - intros f1 f2 H1 H12.
    rewrite (fov_fin (assign (K_focalLength f1) p) f1),
      (fov_fin (assign (K_focalLength f2) p) f2)
      by (try reflexivity; lra).
    cbn [JS.lt]. now apply fieldOfView_decreasing.
  - intros f Hf H15. rewrite (fov_fin p f Hf) by lra.
    eexists. split; [reflexivity | now apply fieldOfView_range].
  - intros parseFloat s Hr.
    destruct (reachable_finite_geometry parseFloat s Hr)
      as (i & d & f & _ & _ & Hf & _ & _ & Hfr).
    rewrite (fov_fin _ f Hf) by lra.
    eexists. split; [reflexivity | apply fieldOfView_range; lra].
Qed.

Lemma fov_narrows_with_focal_length_witness :
  JS.lt (SimulationCanvas.fov (assign (K_focalLength 200) DEFAULT_PARAMS))
        (SimulationCanvas.fov (assign (K_focalLength 15) DEFAULT_PARAMS)).
Proof.
  apply (fov_narrows_with_focal_length DEFAULT_PARAMS); lra.
Defined.

(** X11: the frustum drawn for a camera of focal length [f] at the distance [d]
    of the target ends in a view plane [24 * d / f] high and 16/9 times as
    wide: the sensor height scaled by distance over focal length, the
    conversion of the field of view to degrees and back cancelling out. *)
Theorem frustum_view_plane (p : SimulationParams) (f d : R) :
  focalLength p = JS.Fin f -> 0 < f -> targetDistance p = JS.Fin d ->
  CameraFrustum.halfH (CameraVisualizer.fov p) (targetDistance p)
  = JS.Fin (12 / f * d) /\
  CameraFrustum.halfW (CameraVisualizer.fov p) (targetDistance p)
  = JS.Fin (12 / f * d * (16 / 9)) /\
  CameraFrustum.viewPlaneSize (CameraVisualizer.fov p) (targetDistance p)
  = (JS.Fin (24 * d / f * (16 / 9)), JS.Fin (24 * d / f)).
Proof.
  intros Hf Hpos Hd.
  assert (Hfov : CameraVisualizer.fov p = JS.Fin (Spec.fieldOfView f))
    by (exact (fov_fin p f Hf Hpos)).
  assert (HH : CameraFrustum.halfH (CameraVisualizer.fov p) (targetDistance p)
               = JS.Fin (12 / f * d)).
  { unfold CameraFrustum.halfH, CameraFrustum.fovRad.
    rewrite Hfov, Hd. unfold JS.PI. cbn [JS.mul].
    rewrite !div_fin by lra. cbn [JS.tan JS.mul]. do 2 f_equal.
    replace (Spec.fieldOfView f * Rtrigo1.PI / 180 / 2)
      with (Ratan.atan (12 / f)).
    - apply tan_atan.
    - unfold Spec.fieldOfView, Spec.degrees.
      replace (24 / (2 * f)) with (12 / f) by (field; lra).
      field. apply PI_neq0. }
  assert (HW : CameraFrustum.halfW (CameraVisualizer.fov p) (targetDistance p)
               = JS.Fin (12 / f * d * (16 / 9))).
  { unfold CameraFrustum.halfW, CameraFrustum.aspect. rewrite HH.
    rewrite div_fin by lra. reflexivity. }
  split; [exact HH |]. split; [exact HW |].
  unfold CameraFrustum.viewPlaneSize. rewrite HH, HW. cbn [JS.mul].
  f_equal; f_equal; field; lra.
Qed.

Lemma frustum_view_plane_witness :
  CameraFrustum.halfH (CameraVisualizer.fov DEFAULT_PARAMS)
    (targetDistance DEFAULT_PARAMS)
  = JS.Fin (12 / 50 * 2.5).
Proof.
  apply (frustum_view_plane DEFAULT_PARAMS 50 2.5);
    [reflexivity | lra | reflexivity].
Defined.

End FieldOfView.

Section FrustumMesh.

Lemma frustum_half_extents (v dd : R) :
  0 < v < 180 -> 0 < dd ->
  exists w h,
    0 < w /\ 0 < h /\
    CameraFrustum.halfW (JS.Fin v) (JS.Fin dd) = JS.Fin w /\
    CameraFrustum.halfH (JS.Fin v) (JS.Fin dd) = JS.Fin h.
Proof.
  intros Hv Hdd. pose proof PI_RGT_0 as Hpi.
  assert (Hx : 0 < v * Rtrigo1.PI / 180 / 2 < Rtrigo1.PI / 2).
  { split.
    - apply Rdiv_lt_0_compat; [| lra].
      apply Rdiv_lt_0_compat; [| lra]. apply Rmult_lt_0_compat; lra.
    - replace (v * Rtrigo1.PI / 180 / 2) with (v / 180 * (Rtrigo1.PI / 2))
        by field.
      assert (v / 180 < 1) by (apply quotient_lt; lra).
      assert (0 < Rtrigo1.PI / 2) by lra. nra. }
  assert (Ht : 0 < Rtrigo1.tan (v * Rtrigo1.PI / 180 / 2))
    by (apply tan_gt_0; lra).
  assert (HH : CameraFrustum.halfH (JS.Fin v) (JS.Fin dd)
               = JS.Fin (Rtrigo1.tan (v * Rtrigo1.PI / 180 / 2) * dd)).
  { unfold CameraFrustum.halfH, CameraFrustum.fovRad, JS.PI. cbn [JS.mul].
    rewrite !div_fin by lra. reflexivity. }
  exists (Rtrigo1.tan (v * Rtrigo1.PI / 180 / 2) * dd * (16 / 9)),
         (Rtrigo1.tan (v * Rtrigo1.PI / 180 / 2) * dd).
  assert (0 < Rtrigo1.tan (v * Rtrigo1.PI / 180 / 2) * dd)
    by now apply Rmult_lt_0_compat.
  split; [apply Rmult_lt_0_compat; lra |]. split; [assumption |].
  split; [| exact HH].
  unfold CameraFrustum.halfW, CameraFrustum.aspect. rewrite HH.
  rewrite div_fin by lra. reflexivity.
Qed.

(** X12: for a field of view between 0 and 180 degrees and a positive distance
    the frustum mesh has six triangles, 54 coordinates in all, every far
    corner lies at the depth [-distance], the outline of the far plane
    closes on its first corner, and all six triangles are wound the same
    way: the front of each faces the inside of the frustum. *)
Theorem frustum_mesh_winding (v dd : R) :
  0 < v < 180 -> 0 < dd ->
  length (CameraFrustum.vertices (JS.Fin v) (JS.Fin dd)) = 54%nat /\
  Forall (frontFaces (0, 0, - dd / 2))
         (CameraFrustum.triangles (JS.Fin v) (JS.Fin dd)) /\
  Forall (fun c => zOf c = JS.Fin (- dd))
         (CameraFrustum.farPlaneRect (JS.Fin v) (JS.Fin dd)) /\
  hd_error (CameraFrustum.farPlaneRect (JS.Fin v) (JS.Fin dd))
  = nth_error (CameraFrustum.farPlaneRect (JS.Fin v) (JS.Fin dd)) 4 /\
  length (CameraFrustum.farPlaneRect (JS.Fin v) (JS.Fin dd)) = 5%nat.
Proof.
  intros Hv Hdd.
  destruct (frustum_half_extents v dd Hv Hdd) as (w & h & Hw & Hh & HW & HH).
  split; [reflexivity |].
  split.
  - unfold CameraFrustum.triangles, CameraFrustum.t, CameraFrustum.tl,
      CameraFrustum.tr, CameraFrustum.bl, CameraFrustum.br.
    rewrite HW, HH.
    assert (Hvol : 0 < w * h * dd)
      by (apply Rmult_lt_0_compat; [apply Rmult_lt_0_compat |]; assumption).
    repeat (apply Forall_cons; [cbn; nra |]). apply Forall_nil.
  - split; [| split; reflexivity].
    unfold CameraFrustum.farPlaneRect, CameraFrustum.points.
    repeat (apply Forall_cons; [reflexivity |]). apply Forall_nil.
Qed.

Lemma frustum_mesh_winding_witness :
  length (CameraFrustum.vertices (JS.Fin 90) (JS.Fin 1)) = 54%nat.
Proof.
  apply (frustum_mesh_winding 90 1); lra.
Defined.

End FrustumMesh.

(** ** The right column *)

Section RightColumn.

Variable parseFloat : string -> JS.num.

Lemma error_flags_handle (e : App.event) (s : App.State) :
  match e with
  | App.AnalyzeClick =>
      App.isAnalyzing (App.handle parseFloat e s) = true /\
      App.error (App.handle parseFloat e s) = None
  | App.AnalyzeSettled _ =>
      App.isAnalyzing (App.handle parseFloat e s) = false
  | App.DismissError =>
      App.isAnalyzing (App.handle parseFloat e s) = App.isAnalyzing s /\
      App.error (App.handle parseFloat e s) = None
  | _ =>
      App.isAnalyzing (App.handle parseFloat e s) = App.isAnalyzing s /\
      App.error (App.handle parseFloat e s) = App.error s
  end.
Proof.
  assert (H : forall l st,
             App.isAnalyzing
               (fold_left (fun st f => App.setParams f st) l st)
             = App.isAnalyzing st /\
             App.error (fold_left (fun st f => App.setParams f st) l st)
             = App.error st /\
             App.analysis (fold_left (fun st f => App.setParams f st) l st)
             = App.analysis st).
  { induction l as [| f l IH]; intros st; [repeat split |].
    cbn [fold_left]. destruct (IH (App.setParams f st)) as (-> & -> & ->).
    repeat split. }
  unfold App.handle.
  destruct (H (App.paramUpdates parseFloat e s) s) as (Ha & He & _).
  destruct e as [| | | | | | | | | [thrown | result] |]; cbn;
    try (split; first [assumption | reflexivity]); try assumption.
Qed.

(** While a request is in flight no error is stored. *)
Lemma reachable_inflight_no_error (s : App.State) :
  App.reachable parseFloat s -> App.isAnalyzing s = true -> App.error s = None.
Proof.
  induction 1 as [| s s' Hreach IH Hstep]; [reflexivity |].
  destruct Hstep as [s Hp | e s Hp Hen].
  - unfold App.flushEffect. rewrite Hp. exact IH.
  - pose proof (error_flags_handle e s) as H.
    destruct e as [sl v | sl v | b | file | t | m | | z | | r |];
      [ | | | | | | | | destruct H as [_ He]; now rewrite He
      | rewrite H; discriminate
      | destruct H as [_ He]; now rewrite He ];
      destruct H as [Ha He]; rewrite Ha, He; exact IH.
Qed.

(** X13: in every reachable state with a request in flight, the right column
    shows the loading indicator: no error message stands in front of it,
    and an earlier report is hidden.  When the request then succeeds the
    column shows the report just received and the simulation parameters are
    what they were; when it fails and the message is dismissed, the column
    shows the report of the last success again, or the empty panel. *)
Theorem right_column_while_analyzing (s : App.State) :
  App.reachable parseFloat s -> App.isAnalyzing s = true ->
  Page.rightColumn s = Page.ShowsPanel AIPanel.Loading /\
  (forall r,
     Page.rightColumn (App.handle parseFloat (App.AnalyzeSettled (inr r)) s)
     = Page.ShowsPanel
         (AIPanel.Report (title r) (explanation r) (depthImplications r)
            (technicalNote r)) /\
     App.params (App.handle parseFloat (App.AnalyzeSettled (inr r)) s)
     = App.params s) /\
  (forall e,
     Page.rightColumn
       (App.handle parseFloat App.DismissError
          (App.handle parseFloat (App.AnalyzeSettled (inl e)) s))
     = Page.ShowsPanel
         (match App.analysis s with
          | Some r =>
              AIPanel.Report (title r) (explanation r) (depthImplications r)
                (technicalNote r)
          | None => AIPanel.NoResult
          end)).
Proof.
  intros Hr Ha.
  pose proof (reachable_inflight_no_error s Hr Ha) as He.
  split; [| split].
  - unfold Page.rightColumn, App.rightPanel. rewrite He, Ha. reflexivity.
  - intros r. split; [| reflexivity].
    unfold Page.rightColumn, App.rightPanel. cbn. rewrite He. reflexivity.
  - intros e. unfold Page.rightColumn, App.rightPanel. cbn.
    destruct (App.analysis s); reflexivity.
Qed.

End RightColumn.

Lemma right_column_while_analyzing_witness :
  Page.rightColumn
    (App.handle (fun _ => JS.NaN) App.AnalyzeClick (App.flushEffect App.initial))
  = Page.ShowsPanel AIPanel.Loading.
Proof.
  refine (proj1 (right_column_while_analyzing (fun _ => JS.NaN)
                   (App.handle (fun _ => JS.NaN) App.AnalyzeClick
                      (App.flushEffect App.initial)) _ eq_refl)).
  apply App.reach_step with (s := App.flushEffect App.initial).
  - apply reachable_flushEffect, App.reach_initial.
  - apply App.step_event; [apply flushEffect_settles | reflexivity].
Defined.

(** ** What a request depends on *)

Section Request.

Import Promise.

Variable apiKey : string.
Variable generateContent : string -> Thrown + option string.
Variable JSON_parse : string -> Thrown + AIAnalysisResult.
Variable toString : JS.num -> string.

Local Abbreviation analyzeSimulation' :=
  (geminiService.analyzeSimulation apiKey generateContent JSON_parse toString).

(** X14: the request only reads [ipd], [focalLength] and [targetDistance]: two
    parameter sets that agree on these three send the same prompt and get
    the same outcome, whatever their vergence angle, object and display
    toggles. *)
Theorem request_reads_three_parameters (p q : SimulationParams) :
  ipd p = ipd q -> focalLength p = focalLength q ->
  targetDistance p = targetDistance q ->
  geminiService.prompt toString p = geminiService.prompt toString q /\
  (forall log, analyzeSimulation' p log = analyzeSimulation' q log) /\
  (forall s s' : App.State,
     App.params s = p -> App.params s' = q ->
     App.error (fst (App.handleAnalyze analyzeSimulation' s))
     = App.error (fst (App.handleAnalyze analyzeSimulation' s')) /\
     snd (App.handleAnalyze analyzeSimulation' s)
     = snd (App.handleAnalyze analyzeSimulation' s')).
Proof.
  intros Hi Hf Hd.
  assert (Hprompt : geminiService.prompt toString p
                    = geminiService.prompt toString q)
    by (unfold geminiService.prompt; now rewrite Hi, Hf, Hd).
  assert (Hsame : forall log, analyzeSimulation' p log = analyzeSimulation' q log).
  { intros log. unfold geminiService.analyzeSimulation.
    destruct (geminiService.ai apiKey generateContent); [| reflexivity].
    now rewrite Hprompt. }
  split; [exact Hprompt |]. split; [exact Hsame |].
  intros s s' Hs Hs'. unfold App.handleAnalyze.
  rewrite Hs, Hs', (Hsame []).
  destruct (analyzeSimulation' q []) as [[e | r] log]; split; reflexivity.
Qed.

(** X15: with an API key, a response with a non-empty text and a text that
    parses, [handleAnalyze] sends exactly one request, carrying the prompt
    of the current parameters, stores the parsed report, clears the error,
    ends with the button enabled and leaves the parameters as they were. *)
Theorem successful_analysis (s : App.State) (c : Ascii.ascii) (text : string)
        (r : AIAnalysisResult) :
  apiKey <> EmptyString ->
  generateContent (geminiService.prompt toString (App.params s))
  = inr (Some (String c text)) ->
  JSON_parse (String c text) = inr r ->
  App.handleAnalyze analyzeSimulation' s
  = (App.setIsAnalyzing false
       (App.setAnalysis (Some r)
          (App.setError None (App.setIsAnalyzing true s))),
     [geminiService.prompt toString (App.params s)]) /\
  App.params (fst (App.handleAnalyze analyzeSimulation' s)) = App.params s /\
  App.analysis (fst (App.handleAnalyze analyzeSimulation' s)) = Some r /\
  App.error (fst (App.handleAnalyze analyzeSimulation' s)) = None /\
  App.analyzeButton_disabled (fst (App.handleAnalyze analyzeSimulation' s))
  = false.
Proof.
  intros Hk Hg Hp.
  assert (H : App.handleAnalyze analyzeSimulation' s
              = (App.setIsAnalyzing false
                   (App.setAnalysis (Some r)
                      (App.setError None (App.setIsAnalyzing true s))),
                 [geminiService.prompt toString (App.params s)])).
  { unfold App.handleAnalyze.
    destruct (analyzeSimulation_cases apiKey generateContent JSON_parse
                toString (App.params s)) as [[Hk' _] | [_ Hc]];
      [contradiction |].
    rewrite Hg, Hp in Hc. rewrite Hc. reflexivity. }
  rewrite H. repeat split.
Qed.

End Request.

Lemma request_reads_three_parameters_witness :
  geminiService.prompt (fun _ => "n"%string) DEFAULT_PARAMS
  = geminiService.prompt (fun _ => "n"%string)
      (assign (K_wireframe true) DEFAULT_PARAMS).
Proof.
  apply (request_reads_three_parameters "k"%string (fun _ => inr None)
           (fun _ => inl (Promise.Error "e"%string)) (fun _ => "n"%string)
           DEFAULT_PARAMS (assign (K_wireframe true) DEFAULT_PARAMS));
    reflexivity.
Defined.

Lemma successful_analysis_witness :
  App.analysis
    (fst (App.handleAnalyze
            (geminiService.analyzeSimulation "k"%string
               (fun _ => inr (Some "{}"%string))
               (fun _ => inr {| title := "t"; explanation := "e";
                                depthImplications := "d";
                                technicalNote := "n" |})
               (fun _ => "n"%string))
            App.initial))
  = Some {| title := "t"; explanation := "e"; depthImplications := "d";
            technicalNote := "n" |}.
Proof.
  refine (proj1 (proj2 (proj2
    (successful_analysis "k"%string (fun _ => inr (Some "{}"%string))
       (fun _ => inr {| title := "t"; explanation := "e";
                        depthImplications := "d"; technicalNote := "n" |})
       (fun _ => "n"%string) App.initial _ _ _ _ eq_refl eq_refl)))).
  discriminate.
Defined.

(** ** Bounding boxes, captions and the legend *)

Section Overlay.

Lemma getObjectDimensions_positive (type : string) :
  exists w h dp,
    getObjectDimensions type = (JS.Fin w, JS.Fin h, JS.Fin dp) /\
    0 < w /\ 0 < h /\ 0 < dp.
Proof.
  unfold getObjectDimensions.
  destruct (type =? "cube")%string;
    [| destruct (type =? "sphere")%string;
       [| destruct (type =? "torus")%string;
          [| destruct (type =? "dna")%string]]];
    do 3 eexists; (split; [reflexivity |]); repeat split; lra.
Qed.

(** X16: for a box of finite positive dimensions and a positive label scale,
    the font size of the labels is a tenth of the largest dimension times
    that scale; the width label is anchored above the top face, the height
    label beyond the right face and the depth label below the bottom face,
    each by half the font size; the lengths printed are the dimensions
    times [scale]; and no label is drawn unless [showLabels].  The
    dimensions of an object type, known or not, are finite and positive. *)
Theorem bounding_box_labels (w h dp m : R) (scale : JS.num) :
  0 < w -> 0 < h -> 0 < dp -> 0 < m ->
  let dims := (JS.Fin w, JS.Fin h, JS.Fin dp) in
  let ls := Rmax (Rmax w h) dp * 0.10 * m in
  0 < ls /\ w * 0.10 * m <= ls /\ h * 0.10 * m <= ls /\ dp * 0.10 * m <= ls /\
  BoundingBoxOverlay.labels dims scale m true
  = [ {| BoundingBoxOverlay.at_ :=
           (JS.Fin 0, JS.Fin (h / 2 + ls * 0.5), JS.Fin (dp / 2));
         BoundingBoxOverlay.fontSize := JS.Fin ls;
         BoundingBoxOverlay.metres := (JS.Fin w * scale)%js |};
      {| BoundingBoxOverlay.at_ :=
           (JS.Fin (w / 2 + ls * 0.5), JS.Fin 0, JS.Fin (dp / 2));
         BoundingBoxOverlay.fontSize := JS.Fin ls;
         BoundingBoxOverlay.metres := (JS.Fin h * scale)%js |};
      {| BoundingBoxOverlay.at_ :=
           (JS.Fin (w / 2), JS.Fin (- h / 2 - ls * 0.5), JS.Fin 0);
         BoundingBoxOverlay.fontSize := JS.Fin ls;
         BoundingBoxOverlay.metres := (JS.Fin dp * scale)%js |} ] /\
  h / 2 < h / 2 + ls * 0.5 /\ w / 2 < w / 2 + ls * 0.5 /\
  - h / 2 - ls * 0.5 < - (h / 2) /\
  BoundingBoxOverlay.labels dims scale m false = [] /\
  (forall type, exists w' h' dp',
     getObjectDimensions type = (JS.Fin w', JS.Fin h', JS.Fin dp') /\
     0 < w' /\ 0 < h' /\ 0 < dp').
Proof.
  intros Hw Hh Hdp Hm dims ls.
  assert (Hmax : w <= Rmax (Rmax w h) dp /\ h <= Rmax (Rmax w h) dp
                 /\ dp <= Rmax (Rmax w h) dp).
  { unfold Rmax. destruct (Rle_dec w h);
      match goal with |- context [Rle_dec ?a dp] => destruct (Rle_dec a dp) end;
      lra. }
  destruct Hmax as (H1 & H2 & H3).
  assert (Hls : 0 < ls) by (unfold ls; nra).
  split; [exact Hls |].
  split; [unfold ls; nra |]. split; [unfold ls; nra |].
  split; [unfold ls; nra |].
  split.
  { unfold BoundingBoxOverlay.labels, BoundingBoxOverlay.widthLabel,
      BoundingBoxOverlay.heightLabel, BoundingBoxOverlay.depthLabel,
      BoundingBoxOverlay.labelSize, BoundingBoxOverlay.maxDim, JS.max3, dims.
    cbn [xOf yOf zOf fst snd JS.max JS.mul].
    rewrite !div_fin by lra. cbn [JS.neg JS.mul JS.add JS.sub].
    rewrite !div_fin by lra. cbn [JS.neg JS.mul JS.add JS.sub].
    fold ls. repeat (f_equal; try lra). }
  split; [lra |]. split; [lra |]. split; [lra |].
  split; [reflexivity | exact getObjectDimensions_positive].
Qed.

Lemma bounding_box_labels_witness :
  BoundingBoxOverlay.labels (JS.Fin 2, JS.Fin 2, JS.Fin 2) (JS.Fin 1) (JS.Fin 1)
    false = [].
Proof.
  assert (H1 : 0 < 1) by lra. assert (H2 : 0 < 2) by lra.
  exact (proj1 (proj2 (proj2 (proj2 (proj2 (proj2 (proj2 (proj2 (proj2
           (bounding_box_labels 2 2 2 1 (JS.Fin 1) H2 H2 H2 H1)))))))))).
Defined.

(** X17: the eye positions of the legend, in millimetres, are a thousand times
    the lateral offsets of the two eye cameras, in metres, for every value
    of [ipd]. *)
Theorem legend_matches_cameras (p : SimulationParams) :
  (Page.legendLeft p / 1000)%js
  = xOf (position (SimulationCanvas.leftCamera p)) /\
  (Page.legendRight p / 1000)%js
  = xOf (position (SimulationCanvas.rightCamera p)).
Proof.
  unfold Page.legendLeft, Page.legendRight, SimulationCanvas.leftCamera,
    SimulationCanvas.rightCamera, SimulationCanvas.halfBaseLine, xOf.
  cbn [position fst].
  destruct (ipd p) as [i | | |]; cbn [JS.neg JS.mul].
  - rewrite !div_fin by lra. cbn [JS.neg]. split; f_equal; lra.
  - rewrite (sgn_pos 0.001) by lra. cbn [JS.inf_of].
    rewrite ?div_pinf_pos, ?div_ninf_pos by lra. cbn [JS.neg].
    split; reflexivity.
  - rewrite (sgn_pos 0.001) by lra. cbn [JS.inf_of JS.flip].
    rewrite ?div_pinf_pos, ?div_ninf_pos by lra. cbn [JS.neg].
    split; reflexivity.
  - split; reflexivity.
Qed.

(** X18: the upload button offers to switch the custom model exactly when a
    custom model is mounted in the scene, and to upload one otherwise. *)
Theorem upload_caption_matches_scene (p : SimulationParams) :
  (Page.uploadCaption p = Page.SwitchCustomModel <->
   exists url, SceneObject.objectContent p = [SceneObject.CustomModel url]) /\
  (SceneObject.objectContent p = [SceneObject.UploadPrompt] ->
   objectType p = custom /\ Page.uploadCaption p = Page.UploadModel).
Proof.
  unfold Page.uploadCaption, SceneObject.objectContent.
  destruct (objectType p); cbn [app];
    try (split; [split; [discriminate | intros [url H]; discriminate]
                | discriminate]).
  destruct (SceneObject.truthy (customModelUrl p)) as [url |]; split.
  - split; [intros _; now exists url | reflexivity].
  - discriminate.
  - split; [discriminate | intros [url H]; discriminate].
  - intros _. split; reflexivity.
Qed.

End Overlay.

Lemma upload_caption_matches_scene_witness :
  objectType (assign (K_objectType custom) DEFAULT_PARAMS) = custom /\
  Page.uploadCaption (assign (K_objectType custom) DEFAULT_PARAMS)
  = Page.UploadModel.
Proof.
  apply (upload_caption_matches_scene (assign (K_objectType custom) DEFAULT_PARAMS)).
  reflexivity.
Defined.
